(** * AYAB desktop: the main window (ayab/ayab.py)

    A shallow embedding of [GuiMain] and [GenericThread] from
    [src/ayab/ayab.py], with the parts of PIL and Qt that the methods
    call, and the properties of the specification proved or refuted on it.

    Conventions.
    - Python integers are [Z].  The module runs under Python 3 (PyQt5), so
      [/] is true division; the floats that occur (halves of integers,
      [5.0], [0.5]) are dyadic and are computed exactly in [Q].
    - Python objects that are mutated or aliased (PIL images) live in a
      heap and are handled through references.
    - A method is a computation in the monad [M]: it reads and writes the
      [World] and either returns or raises; the world written before an
      exception is raised is kept, as in Python. *)

From Stdlib Require Import String Ascii ZArith QArith List Bool Lia.
From Stdlib Require Import DecimalString.
Import ListNotations.
Local Open Scope string_scope.
Local Open Scope Z_scope.

(** ** Python exceptions *)

(** The classes that occur in the module and in the libraries it calls.
    [FysomError] is fysom's base error, [FysomCanceled] its subclass
    [fysom.Canceled]; [UserExn] is any other class, given with its base. *)
Inductive ExnClass : Type :=
| BaseException
| Exception
| KeyboardInterrupt
| SystemExit
| TypeError
| ValueError
| AttributeError
| IndexError
| OSError
| FysomError
| FysomCanceled
| UserExn (name : string) (base : ExnClass).

Record Exn : Type := mkExn { exn_class : ExnClass; exn_msg : string }.

(** [issubclass c FysomError]: what [except FysomError] matches. *)
Fixpoint issubclass_FysomError (c : ExnClass) : bool :=
  match c with
  | FysomError => true
  | FysomCanceled => true
  | UserExn _ base => issubclass_FysomError base
  | _ => false
  end.

Definition isinstance_FysomError (e : Exn) : bool :=
  issubclass_FysomError (exn_class e).

Inductive Res (A : Type) : Type :=
| Ret (a : A)
| Raise (e : Exn).
Arguments Ret {A} a.
Arguments Raise {A} e.

(** ** PIL images *)

Module PIL.

(** [GuiMain.pil_image] is ["RGBA"] after a load and ["RGB"] or unchanged
    after a transform, so these are the two modes of a pattern.  The
    single-band images that [split] returns are [Band]s. *)
Inductive Mode : Type := RGB | RGBA.

Definition getbands (m : Mode) : nat :=
  match m with RGB => 3%nat | RGBA => 4%nat end.

Record Band : Type := mkBand { band_size : Z * Z; band_data : list Z }.

(** An image is stored band by band, every band row-major. *)
Record Image : Type := mkImage {
  mode : Mode;
  size : Z * Z;
  bands : list (list Z)
}.

Definition width (im : Image) : Z := fst (size im).
Definition height (im : Image) : Z := snd (size im).

(** [tabulate n f] is [[f 0; ...; f (n-1)]]. *)
Definition tabulate {A : Type} (n : nat) (f : Z -> A) : list A :=
  map (fun k => f (Z.of_nat k)) (seq 0 n).

(** The band of a [w] x [h] image whose value at column [x], row [y] is
    [f x y]. *)
Definition plane_of (w h : Z) (f : Z -> Z -> Z) : list Z :=
  tabulate (Z.to_nat (w * h)) (fun k => f (k mod w) (k / w)).

Definition plane_get (w : Z) (pl : list Z) (x y : Z) : Z :=
  nth (Z.to_nat (y * w + x)) pl 0.

(** [im.getpixel((x, y))]: the band values of one pixel. *)
Definition getpixel (im : Image) (x y : Z) : list Z :=
  map (fun pl => plane_get (width im) pl x y) (bands im).

Definition in_box (x0 y0 w h x y : Z) : bool :=
  (x0 <=? x) && (x <? x0 + w) && (y0 <=? y) && (y <? y0 + h).

(** A well-formed image: positive dimensions, one band per channel of the
    mode, every band of [width * height] bytes. *)
Definition wf_image (im : Image) : Prop :=
  0 < width im /\ 0 < height im /\
  length (bands im) = getbands (mode im) /\
  Forall (fun pl => length pl = Z.to_nat (width im * height im) /\
                    Forall (fun v => 0 <= v <= 255) pl) (bands im).

(** [Image.new(mode, size)]: a black image (alpha 0 as well); PIL refuses
    negative dimensions. *)
Definition new (m : Mode) (sz : Z * Z) : Res Image :=
  let (w, h) := sz in
  if (w <? 0) || (h <? 0)
  then Raise (mkExn ValueError "Width and height must be >= 0")
  else Ret (mkImage m sz (repeat (repeat 0 (Z.to_nat (w * h))) (getbands m))).

(** [im.copy()] *)
Definition copy (im : Image) : Image := mkImage (mode im) (size im) (bands im).

(** [im.convert(mode)] between the two modes: to ["RGB"] the alpha band is
    dropped, to ["RGBA"] an opaque alpha band is added. *)
Definition convert (m : Mode) (im : Image) : Image :=
  match mode im, m with
  | RGBA, RGB => mkImage RGB (size im) (firstn 3 (bands im))
  | RGB, RGBA =>
      mkImage RGBA (size im)
              (bands im ++ [repeat 255 (Z.to_nat (width im * height im))])
  | _, _ => copy im
  end.

(** [im.split()] *)
Definition split (im : Image) : list Band :=
  map (mkBand (size im)) (bands im).

Definition sizes_agree (sz : Z * Z) (b : Band) : bool :=
  (fst (band_size b) =? fst sz) && (snd (band_size b) =? snd sz).

(** [Image.merge(mode, bands)] *)
Definition merge (m : Mode) (bs : list Band) : Res Image :=
  match bs with
  | [] => Raise (mkExn ValueError "wrong number of bands")
  | b0 :: _ =>
      if negb (Nat.eqb (length bs) (getbands m))
      then Raise (mkExn ValueError "wrong number of bands")
      else if negb (forallb (sizes_agree (band_size b0)) bs)
      then Raise (mkExn ValueError "size mismatch")
      else Ret (mkImage m (band_size b0) (map band_data bs))
  end.

(** [im.tobytes("raw", "RGBA")] of an ["RGBA"] image: the pixels in
    row-major order, four bytes each. *)
Definition tobytes (im : Image) : list Z :=
  flat_map (fun k => map (fun pl => nth k pl 0) (bands im))
           (seq 0 (Z.to_nat (width im * height im))).

(** The image of size [(w, h)] whose pixel [(x, y)] is the pixel
    [src x y] of [im]. *)
Definition remap (im : Image) (w h : Z) (src : Z -> Z -> Z * Z) : Image :=
  mkImage (mode im) (w, h)
    (map (fun pl => plane_of w h (fun x y =>
            plane_get (width im) pl (fst (src x y)) (snd (src x y))))
         (bands im)).

Inductive Transpose : Type := FLIP_LEFT_RIGHT | FLIP_TOP_BOTTOM.

(** [im.transpose(method)] *)
Definition transpose (t : Transpose) (im : Image) : Image :=
  let w := width im in
  let h := height im in
  match t with
  | FLIP_LEFT_RIGHT => remap im w h (fun x y => (w - 1 - x, y))
  | FLIP_TOP_BOTTOM => remap im w h (fun x y => (x, h - 1 - y))
  end.

(** [ImageOps.mirror] and [ImageOps.flip] *)
Definition ImageOps_mirror (im : Image) : Image := transpose FLIP_LEFT_RIGHT im.
Definition ImageOps_flip (im : Image) : Image := transpose FLIP_TOP_BOTTOM im.

(** [ImageOps.invert]: the lookup table [255 - i] applied to every band.
    It is defined for ["L"] and ["RGB"] only and raises on ["RGBA"]. *)
Definition ImageOps_invert (im : Image) : Res Image :=
  match mode im with
  | RGB => Ret (mkImage RGB (size im) (map (map (fun v => 255 - v)) (bands im)))
  | RGBA => Raise (mkExn OSError "not supported for this image mode")
  end.

(** What [dst.paste(src, (x0, y0))] leaves in [dst]: [src] is converted
    to the mode of [dst] and copied with its upper left corner at
    [(x0, y0)], clipped to [dst]. *)
Definition pasted (dst src : Image) (x0 y0 : Z) : Image :=
  let s := convert (mode dst) src in
  mkImage (mode dst) (size dst)
    (map (fun pp : list Z * list Z =>
            plane_of (width dst) (height dst) (fun x y =>
              if in_box x0 y0 (width s) (height s) x y
              then plane_get (width s) (snd pp) (x - x0) (y - y0)
              else plane_get (width dst) (fst pp) x y))
         (combine (bands dst) (bands s))).

End PIL.

(** ** Qt: the graphics scene *)

Module Qt.

(** A [QPixmap] made from the raw bytes of the pattern. *)
Record QPixmap : Type := mkQPixmap {
  pixmap_width : Z;
  pixmap_height : Z;
  pixmap_data : list Z
}.

(** The two kinds of item the window draws.  A rectangle is
    [QGraphicsRectItem(x, y, w, h)] with the colour of its brush, if one
    was set; a pixmap item carries its position. *)
Inductive QGraphicsItem : Type :=
| PixmapItem (pixmap : QPixmap) (pos : Q * Q)
| RectItem (x y w h : Q) (brush : option string).

(** A scene is the list of its items, in the order they were added. *)
Definition QGraphicsScene : Type := list QGraphicsItem.

(** [scene.addPixmap(pixmap)] puts the new item at the origin. *)
Definition addPixmap (pixmap : QPixmap) : QGraphicsItem :=
  PixmapItem pixmap (0%Q, 0%Q).

(** [item.setPos(x, y)] *)
Definition setPos (it : QGraphicsItem) (x y : Q) : QGraphicsItem :=
  match it with
  | PixmapItem pixmap _ => PixmapItem pixmap (x, y)
  | RectItem _ _ _ _ _ => it
  end.

Definition setBrush (it : QGraphicsItem) (colour : string) : QGraphicsItem :=
  match it with
  | RectItem x y w h _ => RectItem x y w h (Some colour)
  | PixmapItem _ _ => it
  end.

(** A view: the scale of its transform and the scene it shows. *)
Record QGraphicsView : Type := mkQGraphicsView {
  view_scale : Q * Q;
  view_scene : option QGraphicsScene
}.

End Qt.

(** ** The window and its world *)

Definition ref : Type := nat.

(** The widgets of [Ui_MainWindow] that the methods touch: the enabled
    flag of a widget or menu, the text of a label or line edit. *)
Record Ui : Type := mkUi {
  menuTools : bool;
  widget_imgload : bool;
  menuImage_Actions : bool;
  widget_optionsdock : bool;
  widget_knitcontrol : bool;
  knit_button : bool;
  cancel_button : bool;
  module_dropdown : list string;
  module_dropdown_currentText : string;
  filename_lineedit : string;
  dimensions_label : string;
  notification_label : string;
  statusBar : string;
  image_pattern_view : Qt.QGraphicsView
}.

(** A plugin method called from the foreground gets the window.  It
    acts on it through its widgets (it adds and removes its own controls)
    and returns or raises; the pattern, the enabled plugin and the plugin
    manager are written by the window alone. *)
Definition Hook : Type := Ui -> Res unit * Ui.

(** What is called on the worker: it gets the names of its keyword
    arguments and returns or raises. *)
Definition Callable : Type := list string -> Res unit.

(** The capability surface of a knitting plugin. *)
Record PluginObject : Type := mkPluginObject {
  setup_ui : Hook;
  cleanup_ui : Hook;
  slotSetImageDimensions : Z -> Z -> Hook;
  knit : Callable;
  cancel : Hook
}.

(** yapsy's [PluginInfo]; [plugin_object] is [None] for a plugin that was
    not loaded.  [object_str] is what [str] gives for the object: the
    class has no [__str__], so it is Python's
    ["<yapsy.PluginInfo.PluginInfo object at 0x...>"] with the address of
    the object. *)
Record PluginInfo : Type := mkPluginInfo {
  name : string;
  plugin_object : option PluginObject;
  object_str : string
}.

Record GenericThread : Type := mkGenericThread {
  function : Callable;
  kwargs : list string
}.

Record GuiMain : Type := mkGuiMain {
  image_file_route : option string;
  enabled_plugin : option PluginInfo;
  pil_image : option ref;
  start_needle : Z;
  stop_needle : Z;
  imageAlignment : string;
  var_progress : Z;
  zoomlevel : Q;
  ui : Ui;
  pm : list PluginInfo;
  gt : option GenericThread
}.

Inductive Level : Type := DEBUG | INFO | WARNING | ERROR.

Inductive HookName : Type :=
| H_setup_ui
| H_cleanup_ui
| H_slotSetImageDimensions (w h : Z)
| H_cancel.

(** What the foreground does that the outside can see, oldest first. *)
Inductive Event : Type :=
| Log (lvl : Level) (msg : string)
| Called (plugin : string) (hook : HookName)
| ThreadStart (t : GenericThread).

(** The window, the PIL images alive, the events so far, and the worker
    threads that were started and have not finished. *)
Record World : Type := mkWorld {
  self : GuiMain;
  heap : list PIL.Image;
  trace : list Event;
  running : list GenericThread
}.

(** Field updates. *)
Definition with_menuTools (b : bool) (u : Ui) : Ui :=
  mkUi b (widget_imgload u) (menuImage_Actions u) (widget_optionsdock u)
       (widget_knitcontrol u) (knit_button u) (cancel_button u)
       (module_dropdown u) (module_dropdown_currentText u) (filename_lineedit u)
       (dimensions_label u) (notification_label u) (statusBar u)
       (image_pattern_view u).
Definition with_widget_imgload (b : bool) (u : Ui) : Ui :=
  mkUi (menuTools u) b (menuImage_Actions u) (widget_optionsdock u)
       (widget_knitcontrol u) (knit_button u) (cancel_button u)
       (module_dropdown u) (module_dropdown_currentText u) (filename_lineedit u)
       (dimensions_label u) (notification_label u) (statusBar u)
       (image_pattern_view u).
Definition with_menuImage_Actions (b : bool) (u : Ui) : Ui :=
  mkUi (menuTools u) (widget_imgload u) b (widget_optionsdock u)
       (widget_knitcontrol u) (knit_button u) (cancel_button u)
       (module_dropdown u) (module_dropdown_currentText u) (filename_lineedit u)
       (dimensions_label u) (notification_label u) (statusBar u)
       (image_pattern_view u).
Definition with_widget_optionsdock (b : bool) (u : Ui) : Ui :=
  mkUi (menuTools u) (widget_imgload u) (menuImage_Actions u) b
       (widget_knitcontrol u) (knit_button u) (cancel_button u)
       (module_dropdown u) (module_dropdown_currentText u) (filename_lineedit u)
       (dimensions_label u) (notification_label u) (statusBar u)
       (image_pattern_view u).
Definition with_widget_knitcontrol (b : bool) (u : Ui) : Ui :=
  mkUi (menuTools u) (widget_imgload u) (menuImage_Actions u)
       (widget_optionsdock u) b (knit_button u) (cancel_button u)
       (module_dropdown u) (module_dropdown_currentText u) (filename_lineedit u)
       (dimensions_label u) (notification_label u) (statusBar u)
       (image_pattern_view u).
Definition with_knit_button (b : bool) (u : Ui) : Ui :=
  mkUi (menuTools u) (widget_imgload u) (menuImage_Actions u)
       (widget_optionsdock u) (widget_knitcontrol u) b (cancel_button u)
       (module_dropdown u) (module_dropdown_currentText u) (filename_lineedit u)
       (dimensions_label u) (notification_label u) (statusBar u)
       (image_pattern_view u).
Definition with_cancel_button (b : bool) (u : Ui) : Ui :=
  mkUi (menuTools u) (widget_imgload u) (menuImage_Actions u)
       (widget_optionsdock u) (widget_knitcontrol u) (knit_button u) b
       (module_dropdown u) (module_dropdown_currentText u) (filename_lineedit u)
       (dimensions_label u) (notification_label u) (statusBar u)
       (image_pattern_view u).
Definition with_module_dropdown (l : list string) (u : Ui) : Ui :=
  mkUi (menuTools u) (widget_imgload u) (menuImage_Actions u)
       (widget_optionsdock u) (widget_knitcontrol u) (knit_button u)
       (cancel_button u) l (module_dropdown_currentText u) (filename_lineedit u)
       (dimensions_label u) (notification_label u) (statusBar u)
       (image_pattern_view u).
Definition with_filename_lineedit (s : string) (u : Ui) : Ui :=
  mkUi (menuTools u) (widget_imgload u) (menuImage_Actions u)
       (widget_optionsdock u) (widget_knitcontrol u) (knit_button u)
       (cancel_button u) (module_dropdown u) (module_dropdown_currentText u) s
       (dimensions_label u) (notification_label u) (statusBar u)
       (image_pattern_view u).
Definition with_dimensions_label (s : string) (u : Ui) : Ui :=
  mkUi (menuTools u) (widget_imgload u) (menuImage_Actions u)
       (widget_optionsdock u) (widget_knitcontrol u) (knit_button u)
       (cancel_button u) (module_dropdown u) (module_dropdown_currentText u)
       (filename_lineedit u) s (notification_label u) (statusBar u)
       (image_pattern_view u).
Definition with_notification_label (s : string) (u : Ui) : Ui :=
  mkUi (menuTools u) (widget_imgload u) (menuImage_Actions u)
       (widget_optionsdock u) (widget_knitcontrol u) (knit_button u)
       (cancel_button u) (module_dropdown u) (module_dropdown_currentText u)
       (filename_lineedit u) (dimensions_label u) s (statusBar u)
       (image_pattern_view u).
Definition with_statusBar (s : string) (u : Ui) : Ui :=
  mkUi (menuTools u) (widget_imgload u) (menuImage_Actions u)
       (widget_optionsdock u) (widget_knitcontrol u) (knit_button u)
       (cancel_button u) (module_dropdown u) (module_dropdown_currentText u)
       (filename_lineedit u) (dimensions_label u) (notification_label u) s
       (image_pattern_view u).
Definition with_image_pattern_view (v : Qt.QGraphicsView) (u : Ui) : Ui :=
  mkUi (menuTools u) (widget_imgload u) (menuImage_Actions u)
       (widget_optionsdock u) (widget_knitcontrol u) (knit_button u)
       (cancel_button u) (module_dropdown u) (module_dropdown_currentText u)
       (filename_lineedit u) (dimensions_label u) (notification_label u)
       (statusBar u) v.

Definition with_image_file_route (r : option string) (g : GuiMain) : GuiMain :=
  mkGuiMain r (enabled_plugin g) (pil_image g) (start_needle g) (stop_needle g)
            (imageAlignment g) (var_progress g) (zoomlevel g) (ui g) (pm g) (gt g).
Definition with_enabled_plugin (p : option PluginInfo) (g : GuiMain) : GuiMain :=
  mkGuiMain (image_file_route g) p (pil_image g) (start_needle g) (stop_needle g)
            (imageAlignment g) (var_progress g) (zoomlevel g) (ui g) (pm g) (gt g).
Definition with_pil_image (i : option ref) (g : GuiMain) : GuiMain :=
  mkGuiMain (image_file_route g) (enabled_plugin g) i (start_needle g)
            (stop_needle g) (imageAlignment g) (var_progress g) (zoomlevel g)
            (ui g) (pm g) (gt g).
Definition with_needles (a b : Z) (g : GuiMain) : GuiMain :=
  mkGuiMain (image_file_route g) (enabled_plugin g) (pil_image g) a b
            (imageAlignment g) (var_progress g) (zoomlevel g) (ui g) (pm g) (gt g).
Definition with_imageAlignment (a : string) (g : GuiMain) : GuiMain :=
  mkGuiMain (image_file_route g) (enabled_plugin g) (pil_image g)
            (start_needle g) (stop_needle g) a (var_progress g) (zoomlevel g)
            (ui g) (pm g) (gt g).
Definition with_var_progress (r : Z) (g : GuiMain) : GuiMain :=
  mkGuiMain (image_file_route g) (enabled_plugin g) (pil_image g)
            (start_needle g) (stop_needle g) (imageAlignment g) r (zoomlevel g)
            (ui g) (pm g) (gt g).
Definition with_ui (u : Ui) (g : GuiMain) : GuiMain :=
  mkGuiMain (image_file_route g) (enabled_plugin g) (pil_image g)
            (start_needle g) (stop_needle g) (imageAlignment g) (var_progress g)
            (zoomlevel g) u (pm g) (gt g).
Definition with_gt (t : option GenericThread) (g : GuiMain) : GuiMain :=
  mkGuiMain (image_file_route g) (enabled_plugin g) (pil_image g)
            (start_needle g) (stop_needle g) (imageAlignment g) (var_progress g)
            (zoomlevel g) (ui g) (pm g) t.

(** ** The monad of methods *)

Definition M (A : Type) : Type := World -> Res A * World.

Definition ret {A : Type} (a : A) : M A := fun w => (Ret a, w).

Definition bind {A B : Type} (m : M A) (k : A -> M B) : M B :=
  fun w =>
    match m w with
    | (Ret a, w') => k a w'
    | (Raise e, w') => (Raise e, w')
    end.

Definition raise {A : Type} (e : Exn) : M A := fun w => (Raise e, w).

Definition lift {A : Type} (r : Res A) : M A := fun w => (r, w).

(** [try: m  except: h] with a bare [except], which catches everything. *)
Definition try_except {A : Type} (m : M A) (h : Exn -> M A) : M A :=
  fun w =>
    match m w with
    | (Ret a, w') => (Ret a, w')
    | (Raise e, w') => h e w'
    end.

Declare Scope M_scope.
Delimit Scope M_scope with M.
Notation "x <- m ;; k" := (bind m (fun x => k))
  (at level 61, m at next level, right associativity) : M_scope.
Notation "m ;; k" := (bind m (fun _ => k))
  (at level 61, right associativity) : M_scope.
Local Open Scope M_scope.

Definition gets {A : Type} (f : GuiMain -> A) : M A :=
  fun w => (Ret (f (self w)), w).

Definition modify (f : GuiMain -> GuiMain) : M unit :=
  fun w => (Ret tt, mkWorld (f (self w)) (heap w) (trace w) (running w)).

Definition modify_ui (f : Ui -> Ui) : M unit :=
  modify (fun g => with_ui (f (ui g)) g).

Definition emit (ev : Event) : M unit :=
  fun w => (Ret tt, mkWorld (self w) (heap w) (trace w ++ [ev]) (running w)).

Definition logging (lvl : Level) (msg : string) : M unit := emit (Log lvl msg).

(** [for x in l: body x] *)
Fixpoint for_each {A : Type} (l : list A) (body : A -> M unit) : M unit :=
  match l with
  | [] => ret tt
  | x :: l' => body x ;; for_each l' body
  end.

(** *** The heap of images *)

Definition alloc (im : PIL.Image) : M ref :=
  fun w => (Ret (length (heap w)),
            mkWorld (self w) (heap w ++ [im]) (trace w) (running w)).

Definition lookup (w : World) (r : ref) : option PIL.Image :=
  nth_error (heap w) r.

(** A reference held by the program is never dangling; the model raises
    if it is asked for one that is. *)
Definition deref (r : ref) : M PIL.Image :=
  fun w =>
    match lookup w r with
    | Some im => (Ret im, w)
    | None => (Raise (mkExn (UserExn "ReferenceError" Exception) "dangling"), w)
    end.

Fixpoint update {A : Type} (l : list A) (n : nat) (a : A) : list A :=
  match l, n with
  | [], _ => []
  | _ :: l', O => a :: l'
  | x :: l', S n' => x :: update l' n' a
  end.

Definition store (r : ref) (im : PIL.Image) : M unit :=
  fun w => (Ret tt, mkWorld (self w) (update (heap w) r im) (trace w) (running w)).

(** [dst.paste(src, box)]: [dst] is changed in place. *)
Definition paste (dst src : ref) (box : Z * Z) : M unit :=
  d <- deref dst ;;
  s <- deref src ;;
  store dst (PIL.pasted d s (fst box) (snd box)).

(** *** Python values and built-ins *)

Inductive PyVal : Type :=
| PyInt (z : Z)
| PyFloat (q : Q).

(** [args[i]] *)
Definition item (args : list PyVal) (i : nat) : Res PyVal :=
  match nth_error args i with
  | Some v => Ret v
  | None => Raise (mkExn IndexError "tuple index out of range")
  end.

(** [range(start, stop, step)] *)
Definition range (start stop step : Z) : Res (list Z) :=
  if step =? 0
  then Raise (mkExn ValueError "range() arg 3 must not be zero")
  else
    let n := if 0 <? step
             then (stop - start + step - 1) / step
             else (stop - start + step + 1) / step in
    Ret (map (fun k => start + Z.of_nat k * step) (seq 0 (Z.to_nat n))).

(** [str(z)] *)
Definition str (z : Z) : string := NilZero.string_of_int (Z.to_int z).

(** [n * v] for an integer [n] *)
Definition mul (n : Z) (v : PyVal) : PyVal :=
  match v with
  | PyInt z => PyInt (n * z)
  | PyFloat q => PyFloat (inject_Z n * q)
  end.

(** *** Calls into the enabled plugin *)

Definition NoneType_has_no (attr : string) : Exn :=
  mkExn AttributeError ("'NoneType' object has no attribute '" ++ attr ++ "'").

(** [p.plugin_object.attr], where [p] and [p.plugin_object] may be [None] *)
Definition plugin_attr {A : Type} (p : option PluginInfo) (attr : string)
    (sel : PluginObject -> A) : M (string * A) :=
  match p with
  | None => raise (NoneType_has_no "plugin_object")
  | Some info =>
      match plugin_object info with
      | None => raise (NoneType_has_no attr)
      | Some o => ret (name info, sel o)
      end
  end.

(** Running a plugin method in the foreground. *)
Definition run_hook (h : Hook) : M unit :=
  fun w =>
    let (r, u) := h (ui (self w)) in
    (r, mkWorld (with_ui u (self w)) (heap w) (trace w) (running w)).

(** [p.plugin_object.attr(...)] *)
Definition call_hook (p : option PluginInfo) (attr : string) (hn : HookName)
    (sel : PluginObject -> Hook) : M unit :=
  nh <- plugin_attr p attr sel ;;
  emit (Called (fst nh) hn) ;;
  run_hook (snd nh).

(** ** GenericThread *)

(** [except FysomError as fe]: the handler runs for an instance of
    [FysomError]; any other exception goes on. *)
Definition try_except_FysomError {A : Type} (m : M A) (h : Exn -> M A) : M A :=
  fun w =>
    match m w with
    | (Ret a, w') => (Ret a, w')
    | (Raise e, w') => if isinstance_FysomError e then h e w' else (Raise e, w')
    end.

(** [GenericThread.run] *)
Definition GenericThread_run (t : GenericThread) : M unit :=
  try_except_FysomError
    (lift (function t (kwargs t)))
    (fun fe => logging ERROR (exn_msg fe)) ;;
  ret tt.

(** [QThread.start]: the thread joins the running workers. *)
Definition GenericThread_start (t : GenericThread) : M unit :=
  fun w => (Ret tt, mkWorld (self w) (heap w) (trace w ++ [ThreadStart t])
                            (running w ++ [t])).

(** ** GuiMain *)

(** [pm.getPluginByName(name)] *)
Definition getPluginByName (plugins : list PluginInfo) (n : string)
    : option PluginInfo :=
  find (fun info => String.eqb (name info) n) plugins.

Definition set_enabled_plugin (plugin_name : option string)
    : M (option PluginInfo) :=
  try_except
    (p <- gets enabled_plugin ;;
     match p with
     | Some _ => call_hook p "cleanup_ui" H_cleanup_ui cleanup_ui
     | None => ret tt
     end)
    (fun _ => ret tt) ;;
  plugin_name <- (match plugin_name with
                  | Some n => if String.eqb n ""
                              then gets (fun g => module_dropdown_currentText (ui g))
                              else ret n
                  | None => gets (fun g => module_dropdown_currentText (ui g))
                  end) ;;
  plugin_o <- gets (fun g => getPluginByName (pm g) plugin_name) ;;
  modify (with_enabled_plugin plugin_o) ;;
  try_except
    (p <- gets enabled_plugin ;;
     call_hook p "setup_ui" H_setup_ui setup_ui ;;
     logging INFO ("Set enabled_plugin as "
                   ++ match plugin_o with
                      | Some info => object_str info
                      | None => "None"
                      end ++ " - " ++ plugin_name))
    (fun _ => logging INFO "no plugin object loaded") ;;
  ret plugin_o.

Definition set_dimensions_on_gui (width height : Z) : M unit :=
  let text := str width ++ " - " ++ str height in
  modify_ui (with_dimensions_label text).

(** [self.pil_image.size], the first thing [refresh_scene] evaluates *)
Definition the_pil_image : M PIL.Image :=
  i <- gets pil_image ;;
  match i with
  | Some r => deref r
  | None => raise (NoneType_has_no "size")
  end.

Definition machine_width : Z := 200.
Definition bar_height : Q := 5.
Definition limit_bar_width : Q := 1 # 2.

(** [refresh_scene].  The pixmap made from the bytes of a pattern with
    positive dimensions, as a file gives, has the width and height of the
    pattern.  The coordinates are the numbers the code computes; they are
    exact for needles that fit a C [int], as the signals carry them. *)
Definition refresh_scene : M unit :=
  im <- the_pil_image ;;
  let data := PIL.tobytes (PIL.convert PIL.RGBA im) in
  let pixmap := Qt.mkQPixmap (fst (PIL.size im)) (snd (PIL.size im)) data in
  set_dimensions_on_gui (Qt.pixmap_width pixmap) (Qt.pixmap_height pixmap) ;;
  alignment <- gets imageAlignment ;;
  start <- gets start_needle ;;
  stop <- gets stop_needle ;;
  let pattern := Qt.addPixmap pixmap in
  pattern <-
    (if String.eqb alignment "left" then
       ret (Qt.setPos pattern (inject_Z (start - 100)) 0)
     else if String.eqb alignment "center" then
       ret (Qt.setPos pattern
              (- (inject_Z (Qt.pixmap_width pixmap) / 2)
               + inject_Z (start + stop) / 2 - 100)
              0)
     else if String.eqb alignment "right" then
       ret (Qt.setPos pattern
              (inject_Z (stop - 100 - Qt.pixmap_width pixmap)) 0)
     else
       logging WARNING "invalid alignment" ;; ret pattern) ;;
  let rect_orange :=
    Qt.setBrush (Qt.RectItem (- (inject_Z machine_width / 2)) (- bar_height)
                             (inject_Z machine_width / 2) bar_height None)
                "orange" in
  let rect_green :=
    Qt.setBrush (Qt.RectItem 0 (- bar_height)
                             (inject_Z machine_width / 2) bar_height None)
                "green" in
  let start_limit :=
    Qt.RectItem (inject_Z (start - 101)) (- bar_height) limit_bar_width
                (inject_Z (Qt.pixmap_height pixmap) + 2 * bar_height) None in
  let stop_limit :=
    Qt.RectItem (inject_Z (stop - 100)) (- bar_height) limit_bar_width
                (inject_Z (Qt.pixmap_height pixmap) + 2 * bar_height) None in
  progress <- gets var_progress ;;
  let progress_bar :=
    Qt.RectItem (- (inject_Z machine_width / 2))
                (inject_Z (Qt.pixmap_height pixmap - progress))
                (inject_Z machine_width) limit_bar_width None in
  let qscene :=
    [pattern; rect_orange; rect_green; start_limit; stop_limit; progress_bar] in
  zoom <- gets zoomlevel ;;
  modify_ui (with_image_pattern_view (Qt.mkQGraphicsView (zoom, zoom) (Some qscene))).

Definition updateProgress (row total : Z) : M unit :=
  modify (with_var_progress row) ;;
  refresh_scene ;;
  if negb (total =? 0)
  then modify_ui (with_notification_label (str row ++ "/" ++ str total))
  else ret tt.

Definition update_file_selected_text_field (route : string) : M unit :=
  modify_ui (with_filename_lineedit route) ;;
  modify (with_image_file_route (Some route)).

Definition slotUpdateNotification (text : string) : M unit :=
  logging INFO ("Notification: " ++ text) ;;
  modify_ui (with_notification_label text).

Definition slotUpdateNeedles (start_needle stop_needle : Z) : M unit :=
  modify (with_needles start_needle stop_needle) ;;
  refresh_scene.

Definition slotUpdateAlignment (alignment : string) : M unit :=
  modify (with_imageAlignment alignment) ;;
  refresh_scene.

Definition start_knitting_process : M unit :=
  modify_ui (with_menuTools false) ;;
  modify_ui (with_widget_imgload false) ;;
  modify_ui (with_menuImage_Actions false) ;;
  modify_ui (with_widget_optionsdock false) ;;
  modify_ui (with_knit_button false) ;;
  modify_ui (with_cancel_button true) ;;
  p <- gets enabled_plugin ;;
  k <- plugin_attr p "knit" knit ;;
  let t := mkGenericThread (snd k) ["parent_window"] in
  modify (with_gt (Some t)) ;;
  GenericThread_start t.

Definition cancel_knitting_process : M unit :=
  p <- gets enabled_plugin ;;
  call_hook p "cancel" H_cancel cancel.

Definition resetUI : M unit :=
  modify_ui (with_menuTools true) ;;
  modify_ui (with_widget_imgload true) ;;
  modify_ui (with_menuImage_Actions true) ;;
  modify_ui (with_widget_optionsdock true) ;;
  modify_ui (with_knit_button false) ;;
  modify_ui (with_cancel_button false).

(** [load_image_from_string]; [opened] is what [Image.open(image_str)]
    gives for the file. *)
Definition load_image_from_string (image_str : string)
    (opened : Res PIL.Image) : M unit :=
  im <- lift opened ;;
  r <- alloc im ;;
  modify (with_pil_image (Some r)) ;;
  r <- alloc (PIL.convert PIL.RGBA im) ;;
  modify (with_pil_image (Some r)) ;;
  refresh_scene ;;
  modify_ui (with_statusBar image_str) ;;
  modify_ui (with_widget_optionsdock true) ;;
  modify_ui (with_menuImage_Actions true) ;;
  im <- the_pil_image ;;
  p <- gets enabled_plugin ;;
  call_hook p "slotSetImageDimensions"
            (H_slotSetImageDimensions (fst (PIL.size im)) (snd (PIL.size im)))
            (fun o => slotSetImageDimensions o (fst (PIL.size im)) (snd (PIL.size im))).

(** ** The image transforms *)

Section Transforms.

(** [image.rotate(angle, expand=1)] resamples the image with floating
    point trigonometry; it is a parameter of the development.  Like every
    PIL operation but [paste] it builds its result from the image it is
    given and changes nothing. *)
Variable Image_rotate : PyVal -> PIL.Image -> Res PIL.Image.

Definition __rotate_image (image : ref) (args : list PyVal) : M ref :=
  match args with
  | [] =>
      logging DEBUG "image not altered on __rotate_image." ;;
      ret image
  | angle :: _ =>
      logging DEBUG "rotating image" ;;
      im <- deref image ;;
      rotated <- lift (Image_rotate angle im) ;;
      alloc rotated
  end.

Definition __invert_image (image : ref) (args : list PyVal) : M ref :=
  im <- deref image ;;
  match PIL.mode im with
  | PIL.RGBA =>
      match PIL.split im with
      | [r; g; b; a] =>
          rgb <- lift (PIL.merge PIL.RGB [r; g; b]) ;;
          rgb_image <- alloc rgb ;;
          inverted <- lift (PIL.ImageOps_invert rgb) ;;
          alloc inverted
      | _ => raise (mkExn ValueError "not enough values to unpack")
      end
  | _ =>
      inverted <- lift (PIL.ImageOps_invert im) ;;
      alloc inverted
  end.

Definition __mirror_image (image : ref) (args : list PyVal) : M ref :=
  im <- deref image ;;
  alloc (PIL.ImageOps_mirror im).

Definition __flip_image (image : ref) (args : list PyVal) : M ref :=
  im <- deref image ;;
  alloc (PIL.ImageOps_flip im).

(** [v < 0] *)
Definition negative (v : PyVal) : bool :=
  match v with
  | PyInt z => z <? 0
  | PyFloat q => negb (Qle_bool 0 q)
  end.

(** [Image.new('RGB', (new_w, new_h))]: Pillow first refuses a negative
    width or height, integer or not, and then wants integers.  The text
    of the [TypeError] is the interpreter's, here that of CPython 3.10
    and later; it changes with the version, its class does not. *)
Definition Image_new (m : PIL.Mode) (w h : PyVal) : M (ref * (Z * Z)) :=
  if negative w || negative h
  then raise (mkExn ValueError "Width and height must be >= 0")
  else
    match w, h with
    | PyInt w, PyInt h =>
        im <- lift (PIL.new m (w, h)) ;;
        r <- alloc im ;;
        ret (r, (w, h))
    | _, _ => raise (mkExn TypeError "'float' object cannot be interpreted as an integer")
    end.

Definition __repeat_image (image : ref) (args : list PyVal) : M ref :=
  im <- deref image ;;
  let old_h := snd (PIL.size im) in
  let old_w := fst (PIL.size im) in
  pVertical <- lift (item args 0) ;;
  let new_h := mul old_h pVertical in
  pHorizontal <- lift (item args 1) ;;
  let new_w := mul old_w pHorizontal in
  n <- Image_new PIL.RGB new_w new_h ;;
  let new_im := fst n in
  let new_w := fst (snd n) in
  let new_h := snd (snd n) in
  hs <- lift (range 0 new_h old_h) ;;
  for_each hs (fun h =>
    ws <- lift (range 0 new_w old_w) ;;
    for_each ws (fun w => paste new_im image (w, h))) ;;
  ret new_im.

Definition Transform : Type := ref -> list PyVal -> M ref.

(** [transform_dict.get(transform_type)] *)
Definition transform_dict (transform_type : string) : option Transform :=
  if String.eqb transform_type "invert" then Some __invert_image
  else if String.eqb transform_type "repeat" then Some __repeat_image
  else if String.eqb transform_type "mirror" then Some __mirror_image
  else if String.eqb transform_type "flip" then Some __flip_image
  else if String.eqb transform_type "rotate" then Some __rotate_image
  else None.

(** [transform(image, args)], where [transform] may be [None] *)
Definition call (transform : option Transform) (image : ref)
    (args : list PyVal) : M ref :=
  match transform with
  | Some f => f image args
  | None => raise (mkExn TypeError "'NoneType' object is not callable")
  end.

Definition apply_image_transform (transform_type : string)
    (args : list PyVal) : M unit :=
  let transform := transform_dict transform_type in
  image <- gets pil_image ;;
  match image with
  | None => ret tt
  | Some image =>
      image <- try_except
                 (call transform image args)
                 (fun _ => logging ERROR "Error on executing transform" ;;
                           ret image) ;;
      modify (with_pil_image (Some image)) ;;
      modify_ui (with_widget_knitcontrol false) ;;
      im <- the_pil_image ;;
      p <- gets enabled_plugin ;;
      call_hook p "slotSetImageDimensions"
                (H_slotSetImageDimensions (fst (PIL.size im)) (snd (PIL.size im)))
                (fun o => slotSetImageDimensions o (fst (PIL.size im))
                                                 (snd (PIL.size im))) ;;
      refresh_scene
  end.

Definition invert_image : M unit := apply_image_transform "invert" [].

(** [repeat_image]; [v] and [h] are what the two [QInputDialog.getInt]
    dialogs return: the number and whether it was accepted. *)
Definition repeat_image (v h : Z * bool) : M unit :=
  apply_image_transform "repeat" [PyInt (fst v); PyInt (fst h)].

Definition mirror_image : M unit := apply_image_transform "mirror" [].

Definition flip_image : M unit := apply_image_transform "flip" [].

Definition rotate_left : M unit := apply_image_transform "rotate" [PyFloat 90].

Definition rotate_right : M unit :=
  apply_image_transform "rotate" [PyFloat (-90)].

End Transforms.

(** ** Observations used in the statements *)

(** The scene the pattern view shows. *)
Definition shown_scene (w : World) : Qt.QGraphicsScene :=
  match Qt.view_scene (image_pattern_view (ui (self w))) with
  | Some s => s
  | None => []
  end.

(** Where the pattern item of a scene is. *)
Definition pattern_pos (s : Qt.QGraphicsScene) : option (Q * Q) :=
  match s with
  | Qt.PixmapItem _ pos :: _ => Some pos
  | _ => None
  end.

(** The rectangles of a scene as [(x, y, w, h)], in the order they were
    added: with a brush (the halves of the machine) and without (the two
    limit lines, then the progress line). *)
Fixpoint rects (brushed : bool) (s : Qt.QGraphicsScene) : list (Q * Q * Q * Q) :=
  match s with
  | [] => []
  | Qt.RectItem x y w h b :: s' =>
      if Bool.eqb brushed (match b with Some _ => true | None => false end)
      then (x, y, w, h) :: rects brushed s'
      else rects brushed s'
  | Qt.PixmapItem _ _ :: s' => rects brushed s'
  end.

Definition rect_eq (a b : Q * Q * Q * Q) : Prop :=
  let '(x, y, w, h) := a in
  let '(x', y', w', h') := b in
  x == x' /\ y == y' /\ w == w' /\ h == h'.

Definition pos_eq (a b : option (Q * Q)) : Prop :=
  match a, b with
  | Some (x, y), Some (x', y') => x == x' /\ y == y'
  | None, None => True
  | _, _ => False
  end.

Definition known_alignment (a : string) : bool :=
  String.eqb a "left" || String.eqb a "center" || String.eqb a "right".

(** The two limit lines of the scene [w] shows are at [xa] and [xb],
    start at [-bar_height], are [limit_bar_width] wide and
    [h + 2 * bar_height] high. *)
Definition limit_lines_at (w : World) (xa xb : Q) (h : Z) : Prop :=
  exists a b rest,
    rects false (shown_scene w) = a :: b :: rest /\
    rect_eq a (xa, - bar_height, limit_bar_width,
               inject_Z h + 2 * bar_height)%Q /\
    rect_eq b (xb, - bar_height, limit_bar_width,
               inject_Z h + 2 * bar_height)%Q.

(** The two halves of the machine are drawn. *)
Definition machine_drawn (w : World) : Prop :=
  exists a b,
    rects true (shown_scene w) = [a; b] /\
    rect_eq a (- (inject_Z machine_width / 2), - bar_height,
               inject_Z machine_width / 2, bar_height)%Q /\
    rect_eq b (0, - bar_height, inject_Z machine_width / 2, bar_height)%Q.

(** ** Sample data *)

Definition quiet : Hook := fun u => (Ret tt, u).

Definition failing (e : Exn) : Hook := fun u => (Raise e, u).

Definition quiet_plugin (n : string) : PluginInfo :=
  mkPluginInfo n (Some (mkPluginObject quiet quiet (fun _ _ => quiet)
                                       (fun _ => Ret tt) quiet))
               "<yapsy.PluginInfo.PluginInfo object at 0x7f3a5c0b1d30>".

(** A window as [__init__] leaves it when the plugin ["AYAB"] was found:
    needles 80 and 119, alignment center, zoom 3, nothing loaded. *)
Definition sample_ui : Ui :=
  mkUi true true false false false false false ["AYAB"] "AYAB" "" "" "" ""
       (Qt.mkQGraphicsView (1%Q, 1%Q) None).

Definition sample_window : GuiMain :=
  mkGuiMain None (Some (quiet_plugin "AYAB")) None 80 119 "center" 0 3
            sample_ui [quiet_plugin "AYAB"] None.

(** A black, transparent ["RGBA"] pattern, 40 wide and 2 high. *)
Definition sample_pattern : PIL.Image :=
  PIL.mkImage PIL.RGBA (40, 2) (repeat (repeat 0 80%nat) 4).

(** The window with the sample pattern loaded and a given alignment. *)
Definition sample_world (alignment : string) : World :=
  mkWorld (with_imageAlignment alignment (with_pil_image (Some 0%nat) sample_window))
          [sample_pattern] [] [].

(** The window with nothing loaded. *)
Definition empty_world : World := mkWorld sample_window [] [] [].

(** A plugin whose teardown raises. *)
Definition stubborn_plugin (n : string) : PluginInfo :=
  mkPluginInfo n
    (Some (mkPluginObject quiet (failing (mkExn ValueError "teardown failed"))
                          (fun _ _ => quiet) (fun _ => Ret tt) quiet))
    "<yapsy.PluginInfo.PluginInfo object at 0x7f3a5c0b1e48>".

(** A window with two plugins, the stubborn one enabled. *)
Definition two_plugin_world : World :=
  mkWorld (mkGuiMain None (Some (stubborn_plugin "OLD")) None 80 119 "center" 0 3
                     sample_ui [stubborn_plugin "OLD"; quiet_plugin "AYAB"] None)
          [] [] [].

(** A plugin whose teardown takes its options out of the dock, says so in
    the notification label and then fails. *)
Definition leaving_plugin (n : string) : PluginInfo :=
  mkPluginInfo n
    (Some (mkPluginObject
             quiet
             (fun u => (Raise (mkExn ValueError "teardown failed"),
                        with_notification_label "options removed"
                          (with_widget_optionsdock false u)))
             (fun _ _ => quiet) (fun _ => Ret tt) quiet))
    "<yapsy.PluginInfo.PluginInfo object at 0x7f3a5c0b1f60>".

(** A plugin whose setup puts its options into the dock and shows in the
    status bar what the notification label said before. *)
Definition arriving_plugin (n : string) : PluginInfo :=
  mkPluginInfo n
    (Some (mkPluginObject
             (fun u => (Ret tt,
                        with_statusBar (notification_label u ++ "; options added")
                          (with_widget_optionsdock true u)))
             quiet (fun _ _ => quiet) (fun _ => Ret tt) quiet))
    "<yapsy.PluginInfo.PluginInfo object at 0x7f3a5c0b2080>".

(** A window with these two plugins, the leaving one enabled, its options
    in the dock. *)
Definition handover_world : World :=
  mkWorld (mkGuiMain None (Some (leaving_plugin "OLD")) None 80 119 "center" 0 3
                     (with_widget_optionsdock true sample_ui)
                     [leaving_plugin "OLD"; arriving_plugin "AYAB"] None)
          [] [] [].

(** A worker whose function raises [e]. *)
Definition raising_thread (e : Exn) : GenericThread :=
  mkGenericThread (fun _ => Raise e) ["parent_window"].

(** ** Frames *)

(** [frame n w w']: from [w] to [w'] the window and the workers are the
    same, no image went away and the images below [n] are unchanged. *)
Definition frame (n : nat) (w w' : World) : Prop :=
  self w' = self w /\ running w' = running w /\
  (length (heap w) <= length (heap w'))%nat /\
  forall r, (r < n)%nat -> lookup w' r = lookup w r.

(** [framed n m Q]: run in a world with at least [n] images, [m] keeps
    the frame [n], and what it returns satisfies [Q]. *)
Definition framed {A : Type} (n : nat) (m : M A) (Q : A -> Prop) : Prop :=
  forall w, (n <= length (heap w))%nat ->
    frame n w (snd (m w)) /\ forall a, fst (m w) = Ret a -> Q a.

Definition any {A : Type} : A -> Prop := fun _ => True.

(** [keeps_pattern w w']: from [w] to [w'] the pattern and the images are
    the same and the events of [w] are still the first events. *)
Definition keeps_pattern (w w' : World) : Prop :=
  pil_image (self w') = pil_image (self w) /\ heap w' = heap w /\
  exists t, trace w' = (trace w ++ t)%list.

(** The notification of the plugin and the rendering that end
    [apply_image_transform], for a pattern [im]. *)
Definition notify_and_render (im : PIL.Image) : M unit :=
  bind (gets enabled_plugin) (fun p =>
  bind (call_hook p "slotSetImageDimensions"
          (H_slotSetImageDimensions (fst (PIL.size im)) (snd (PIL.size im)))
          (fun o => slotSetImageDimensions o (fst (PIL.size im))
                                           (snd (PIL.size im))))
       (fun _ => refresh_scene)).

(** What the two loops of [__repeat_image] leave in the new image [cur]:
    the pattern [im] pasted at every [(x, y)], [y] from [hs] in the outer
    loop and [x] from [ws] in the inner one. *)
Definition paste_row (im : PIL.Image) (ws : list Z) (y : Z) (cur : PIL.Image)
    : PIL.Image :=
  fold_left (fun c x => PIL.pasted c im x y) ws cur.

Definition paste_rows (im : PIL.Image) (ws hs : list Z) (cur : PIL.Image)
    : PIL.Image :=
  fold_left (fun c y => paste_row im ws y c) hs cur.

(** An ["RGB"] image of a given size with its three bands. *)
Definition is_RGB (sz : Z * Z) (im : PIL.Image) : Prop :=
  PIL.mode im = PIL.RGB /\ PIL.size im = sz /\ length (PIL.bands im) = 3%nat.

(** The paste of [im] at [(x0, y0)] covers the pixel [(x, y)]. *)
Definition covers (im : PIL.Image) (x0 y0 x y : Z) : bool :=
  PIL.in_box x0 y0 (PIL.width im) (PIL.height im) x y.

(** What that paste puts at [(x, y)]. *)
Definition brought (im : PIL.Image) (x0 y0 x y : Z) : list Z :=
  PIL.getpixel (PIL.convert PIL.RGB im) (x - x0) (y - y0).

(** A single ["RGBA"] pixel: red 10, green 30, blue 50, transparent. *)
Definition one_pixel : PIL.Image :=
  PIL.mkImage PIL.RGBA (1, 1) [[10]; [30]; [50]; [0]].

Definition one_pixel_world : World :=
  mkWorld (with_pil_image (Some 0%nat) sample_window) [one_pixel] [] [].

(** Two ["RGBA"] pixels side by side, the first transparent. *)
Definition two_pixels : PIL.Image :=
  PIL.mkImage PIL.RGBA (2, 1) [[10; 20]; [30; 40]; [50; 60]; [0; 255]].

Definition two_pixel_world : World :=
  mkWorld (with_pil_image (Some 0%nat) sample_window) [two_pixels] [] [].

(** A stand-in for [Image.rotate] in the instances below. *)
Definition no_rotation : PyVal -> PIL.Image -> Res PIL.Image :=
  fun _ im => Ret (PIL.copy im).


(** ** More of the window *)

Definition with_zoomlevel (z : Q) (g : GuiMain) : GuiMain :=
  mkGuiMain (image_file_route g) (enabled_plugin g) (pil_image g)
            (start_needle g) (stop_needle g) (imageAlignment g) (var_progress g)
            z (ui g) (pm g) (gt g).

(** [wheelEvent]; [angleDelta_y] is [event.angleDelta().y()], a C int.
    The division and the sum are those of the rationals; they are what
    the floats of the source give when the angle is a multiple of 120,
    as for the steps of a mouse wheel, and the zoom level an integer. *)
Definition wheelEvent (angleDelta_y : Z) : M unit :=
  i <- gets pil_image ;;
  match i with
  | Some _ =>
      let zoom := (inject_Z angleDelta_y / 120)%Q in
      z <- gets zoomlevel ;;
      modify (with_zoomlevel (z + zoom)) ;;
      z <- gets zoomlevel ;;
      (if Qle_bool z 1 then modify (with_zoomlevel 1)
       else if Qle_bool 5 z then modify (with_zoomlevel 5)
       else ret tt) ;;
      refresh_scene
  | None => ret tt
  end.

(** The four static functions of [QMessageBox] in [box_function]. *)
Inductive MessageBox : Type := critical | information | question | warning.

(** [box_function.get(message_type)] *)
Definition box_function (message_type : string) : option MessageBox :=
  if String.eqb message_type "error" then Some critical
  else if String.eqb message_type "info" then Some information
  else if String.eqb message_type "question" then Some question
  else if String.eqb message_type "warning" then Some warning
  else None.

(** [display_blocking_pop_up]; [exec box title message] shows the box with
    its single Ok button and tells whether [QMessageBox.Ok] came back.
    The method returns [True] or, by falling off its end, [None]. *)
Definition display_blocking_pop_up
    (exec : MessageBox -> string -> string -> bool)
    (message message_type : string) : M (option bool) :=
  logging DEBUG ("MessageBox " ++ message_type ++ ": '" ++ message ++ "'") ;;
  match box_function message_type with
  | None => raise (mkExn TypeError "'NoneType' object is not callable")
  | Some message_box_function =>
      if exec message_box_function "AYAB" message
      then ret (Some true)
      else ret None
  end.

(** [file_select_dialog]; [home] is [os.path.expanduser("~")],
    [getOpenFileName dir] the path the dialog opened on [dir] returns
    (empty when it is cancelled) and [open path] what [Image.open] gives
    for a path. *)
Definition file_select_dialog (home : string)
    (getOpenFileName : string -> string)
    (open : string -> Res PIL.Image) : M unit :=
  filenameValue <- gets (fun g => filename_lineedit (ui g)) ;;
  let filePath := if String.eqb filenameValue "" then home else "" in
  let file_selected_route := getOpenFileName filePath in
  if String.eqb file_selected_route ""
  then ret tt
  else
    update_file_selected_text_field file_selected_route ;;
    load_image_from_string file_selected_route (open file_selected_route).

(** ** More observations *)

(** The line that shows the progress: the third rectangle without a
    brush. *)
Definition progress_line_at (w : World) (y : Q) : Prop :=
  exists a b c,
    rects false (shown_scene w) = [a; b; c] /\
    rect_eq c (- (inject_Z machine_width / 2), y,
               inject_Z machine_width, limit_bar_width)%Q.

(** The enabled flags of the widgets. *)
Definition enabled_flags (u : Ui) : list bool :=
  [menuTools u; widget_imgload u; menuImage_Actions u; widget_optionsdock u;
   widget_knitcontrol u; knit_button u; cancel_button u].

(** [max(1, min(5, z))] *)
Definition clamp_zoom (z : Q) : Q :=
  if Qle_bool z 1 then 1 else if Qle_bool 5 z then 5 else z.

(** The rectangles of a scene that have a brush, each with the colour of
    its brush, in the order they were added. *)
Fixpoint brushed_rects (s : Qt.QGraphicsScene)
    : list (string * (Q * Q * Q * Q)) :=
  match s with
  | [] => []
  | Qt.RectItem x y w h (Some colour) :: s' =>
      (colour, (x, y, w, h)) :: brushed_rects s'
  | _ :: s' => brushed_rects s'
  end.

(** The machine in its colours: an orange bar for the needles left of the
    middle and a green bar for those right of it, each half the machine
    wide, and no other rectangle with a brush. *)
Definition machine_in_colour (w : World) : Prop :=
  exists a b,
    brushed_rects (shown_scene w) = [("orange", a); ("green", b)] /\
    rect_eq a (- (inject_Z machine_width / 2), - bar_height,
               inject_Z machine_width / 2, bar_height)%Q /\
    rect_eq b (0, - bar_height, inject_Z machine_width / 2, bar_height)%Q.

(** The message types [display_blocking_pop_up] knows. *)
Definition message_types : list string := ["error"; "info"; "question"; "warning"].

(** The window before any plugin is enabled. *)
Definition no_plugin_world : World :=
  mkWorld (with_enabled_plugin None sample_window) [] [] [].

(** A dialog that is answered with a path, and a file that does not open. *)
Definition picks (path : string) : string -> string := fun _ => path.

Definition unreadable : string -> Res PIL.Image :=
  fun _ => Raise (mkExn OSError "cannot identify image file").

(** The value is a float. *)
Definition is_float (v : PyVal) : bool :=
  match v with
  | PyFloat _ => true
  | PyInt _ => false
  end.
(** * Properties *)

(** ** Rendering *)

(** Equations in [Q] between integers injected in different places. *)
Ltac Q_of_Z :=
  unfold Z.sub;
  rewrite ?inject_Z_plus, ?inject_Z_opp, ?inject_Z_mult;
  first [reflexivity | ring | field].

Ltac run_refresh_scene Hp Hl :=
  unfold refresh_scene, the_pil_image, bind, gets, deref;
  rewrite Hp, Hl;
  cbn [fst snd set_dimensions_on_gui modify_ui modify self heap trace running
       imageAlignment start_needle stop_needle var_progress zoomlevel ui
       with_ui with_dimensions_label].

Lemma refresh_scene_returns (w : World) (r : ref) (im : PIL.Image) :
  pil_image (self w) = Some r -> lookup w r = Some im ->
  fst (refresh_scene w) = Ret tt.
Proof.
  intros Hp Hl. run_refresh_scene Hp Hl.
  destruct (String.eqb _ "left"); [reflexivity|].
  destruct (String.eqb _ "center"); [reflexivity|].
  destruct (String.eqb _ "right"); reflexivity.
Qed.

(** C1.  With a pattern of width [pw] loaded and needles [start], [stop],
    rendering returns and puts the left edge of the pattern at
    [start - 100] in mode left, at [-pw/2 + (start+stop)/2 - 100] (true
    division) in mode center and at [stop - 100 - pw] in mode right. *)
Theorem refresh_scene_places_pattern (w : World) (r : ref) (im : PIL.Image) :
  pil_image (self w) = Some r -> lookup w r = Some im ->
  let start := start_needle (self w) in
  let stop := stop_needle (self w) in
  let pw := PIL.width im in
  fst (refresh_scene w) = Ret tt /\
  exists x,
    pattern_pos (shown_scene (snd (refresh_scene w))) = Some (x, 0%Q) /\
    (imageAlignment (self w) = "left" -> x == inject_Z start - 100) /\
    (imageAlignment (self w) = "center" ->
       x == - (inject_Z pw / 2) + (inject_Z start + inject_Z stop) / 2 - 100) /\
    (imageAlignment (self w) = "right" ->
       x == inject_Z stop - 100 - inject_Z pw).
Proof.
  intros Hp Hl start stop pw.
  split; [eapply refresh_scene_returns; eauto|].
  subst start stop pw. unfold PIL.width.
  run_refresh_scene Hp Hl.
  destruct (String.eqb _ "left") eqn:El.
  { apply String.eqb_eq in El. rewrite El. cbn.
    eexists. split; [reflexivity|].
    repeat split; intros; try discriminate.
    Q_of_Z. }
  destruct (String.eqb _ "center") eqn:Ec.
  { apply String.eqb_eq in Ec. rewrite Ec. cbn.
    eexists. split; [reflexivity|].
    repeat split; intros; try discriminate.
    Q_of_Z. }
  destruct (String.eqb _ "right") eqn:Er.
  { apply String.eqb_eq in Er. rewrite Er. cbn.
    eexists. split; [reflexivity|].
    repeat split; intros; try discriminate.
    Q_of_Z. }
  apply String.eqb_neq in El, Ec, Er. cbn.
  eexists. split; [reflexivity|].
  repeat split; intros; congruence.
Qed.

Ltac cases_of_alignment :=
  destruct (String.eqb _ "left");
  [|destruct (String.eqb _ "center");
    [|destruct (String.eqb _ "right")]].

(** The limit lines are the same in every branch of the alignment. *)
Ltac limit_lines Hp Hl :=
  unfold limit_lines_at, PIL.height;
  run_refresh_scene Hp Hl;
  cases_of_alignment; cbn;
  (eexists _, _, _; split; [reflexivity|];
   split; (repeat split; try reflexivity; Q_of_Z)).

(** C7, as the code has it.  With a pattern of height [H] loaded,
    rendering draws the limit line of the start needle at [start - 101]
    and the one of the stop needle at [stop - 100]; both start at
    [-bar_height], are [limit_bar_width] wide and [H + 2 * bar_height]
    high. *)
Theorem refresh_scene_limit_lines (w : World) (r : ref) (im : PIL.Image) :
  pil_image (self w) = Some r -> lookup w r = Some im ->
  limit_lines_at (snd (refresh_scene w))
                 (inject_Z (start_needle (self w)) - 101)
                 (inject_Z (stop_needle (self w)) - 100)
                 (PIL.height im).
Proof.
  intros Hp Hl. unfold limit_lines_at, PIL.height.
  run_refresh_scene Hp Hl.
  cases_of_alignment; cbn.
  all: eexists _, _, _; split; [reflexivity|].
  all: split; repeat split; try reflexivity; Q_of_Z.
Qed.

(** C6, as the code has it.  With a pattern loaded and an alignment that
    is none of left, center and right, rendering returns, logs the
    warning, draws the two halves of the machine and the two limit lines,
    and the pattern item of the new scene is at the origin. *)
Theorem refresh_scene_unknown_alignment (w : World) (r : ref) (im : PIL.Image) :
  pil_image (self w) = Some r -> lookup w r = Some im ->
  known_alignment (imageAlignment (self w)) = false ->
  fst (refresh_scene w) = Ret tt /\
  trace (snd (refresh_scene w))
  = (trace w ++ [Log WARNING "invalid alignment"])%list /\
  machine_drawn (snd (refresh_scene w)) /\
  limit_lines_at (snd (refresh_scene w))
                 (inject_Z (start_needle (self w)) - 101)
                 (inject_Z (stop_needle (self w)) - 100)
                 (PIL.height im) /\
  pattern_pos (shown_scene (snd (refresh_scene w))) = Some (0%Q, 0%Q).
Proof.
  intros Hp Hl Hk.
  split; [eapply refresh_scene_returns; eauto|].
  split; [|split; [|split; [limit_lines Hp Hl|]]].
  all: unfold known_alignment in Hk;
    apply orb_false_iff in Hk; destruct Hk as [Hk Er];
    apply orb_false_iff in Hk; destruct Hk as [El Ec];
    unfold machine_drawn;
    run_refresh_scene Hp Hl; rewrite El, Ec, Er; cbn.
  - reflexivity.
  - eexists _, _. split; [reflexivity|].
    split; repeat split; reflexivity.
  - reflexivity.
Qed.

(** ** The monad *)

Lemma bind_Ret {A B : Type} (m : M A) (k : A -> M B) (w w1 : World) (a : A) :
  m w = (Ret a, w1) -> bind m k w = k a w1.
Proof. intros H. unfold bind. rewrite H. reflexivity. Qed.

Lemma bind_Raise {A B : Type} (m : M A) (k : A -> M B) (w w1 : World) (e : Exn) :
  m w = (Raise e, w1) -> bind m k w = (Raise e, w1).
Proof. intros H. unfold bind. rewrite H. reflexivity. Qed.

(** ** Transforms keep the images that exist *)

Lemma length_update {A : Type} (l : list A) (n : nat) (a : A) :
  length (update l n a) = length l.
Proof.
  revert n. induction l as [|x l IH]; intros [|n]; cbn; auto.
Qed.

Lemma nth_error_update_other {A : Type} (l : list A) (n r : nat) (a : A) :
  r <> n -> nth_error (update l n a) r = nth_error l r.
Proof.
  revert n r. induction l as [|x l IH]; intros [|n] [|r] H; cbn; auto.
  congruence.
Qed.

Lemma frame_refl (n : nat) (w : World) : frame n w w.
Proof. repeat split; auto. Qed.

Lemma frame_trans (n : nat) (w1 w2 w3 : World) :
  frame n w1 w2 -> frame n w2 w3 -> frame n w1 w3.
Proof.
  intros (S1 & R1 & L1 & H1) (S2 & R2 & L2 & H2).
  repeat split; try congruence; try lia.
  intros r Hr. rewrite H2, H1; auto.
Qed.

Lemma frame_trace (n : nat) (w : World) (t : list Event) :
  frame n w (mkWorld (self w) (heap w) t (running w)).
Proof. repeat split; auto. Qed.

Section Framed.

Variable n : nat.

Lemma framed_ret {A : Type} (a : A) (Q : A -> Prop) : Q a -> framed n (ret a) Q.
Proof.
  intros H w _. split; [apply frame_refl|].
  intros a' E. cbn in E. congruence.
Qed.

Lemma framed_raise {A : Type} (e : Exn) (Q : A -> Prop) : framed n (raise e) Q.
Proof.
  intros w _. split; [apply frame_refl|]. intros a' E. discriminate E.
Qed.

Lemma framed_lift {A : Type} (r : Res A) : framed n (lift r) (fun a => r = Ret a).
Proof.
  intros w _. split; [apply frame_refl|]. intros a' E. exact E.
Qed.

Lemma framed_weaken {A : Type} (m : M A) (P Q : A -> Prop) :
  framed n m P -> (forall a, P a -> Q a) -> framed n m Q.
Proof.
  intros H HPQ w Hw. destruct (H w Hw) as [F R]. split; auto.
Qed.

Lemma framed_bind {A B : Type} (m : M A) (k : A -> M B) (P : A -> Prop)
    (Q : B -> Prop) :
  framed n m P -> (forall a, P a -> framed n (k a) Q) -> framed n (bind m k) Q.
Proof.
  intros Hm Hk w Hw. destruct (Hm w Hw) as [F R].
  unfold bind. destruct (m w) as [[a|e] w1]; cbn [fst snd] in *.
  - assert (Hw1 : (n <= length (heap w1))%nat)
      by (destruct F as (_ & _ & L & _); lia).
    destruct (Hk a (R a eq_refl) w1 Hw1) as [F1 R1].
    split; [eapply frame_trans; eauto|exact R1].
  - split; [exact F|]. intros b E. discriminate E.
Qed.

Lemma framed_logging (lvl : Level) (msg : string) :
  framed n (logging lvl msg) any.
Proof.
  intros w _. split; [apply frame_trace|]. intros; exact I.
Qed.

Lemma framed_deref (r : ref) : framed n (deref r) any.
Proof.
  intros w _. unfold deref. destruct (lookup w r); cbn.
  - split; [apply frame_refl|]. intros; exact I.
  - split; [apply frame_refl|]. intros; exact I.
Qed.

Lemma framed_alloc (im : PIL.Image) :
  framed n (alloc im) (fun r => (n <= r)%nat).
Proof.
  intros w Hw. unfold alloc. cbn. split.
  - repeat split; cbn; auto.
    + rewrite length_app. lia.
    + intros r Hr. unfold lookup. cbn. apply nth_error_app1. lia.
  - intros a E. injection E as <-. exact Hw.
Qed.

Lemma framed_paste (dst src : ref) (box : Z * Z) :
  (n <= dst)%nat -> framed n (paste dst src box) any.
Proof.
  intros Hd w Hw. unfold paste, bind, deref, store.
  destruct (lookup w dst); cbn; [|split; [apply frame_refl|intros; exact I]].
  destruct (lookup w src); cbn; [|split; [apply frame_refl|intros; exact I]].
  split; [|intros; exact I].
  repeat split; cbn; auto.
  - rewrite length_update. lia.
  - intros r Hr. unfold lookup. cbn. apply nth_error_update_other. lia.
Qed.

Lemma framed_for_each {A : Type} (l : list A) (body : A -> M unit) :
  (forall x, framed n (body x) any) -> framed n (for_each l body) any.
Proof.
  intros Hb. induction l as [|x l IH]; cbn [for_each].
  - apply framed_ret. exact I.
  - eapply framed_bind; [apply Hb|]. intros _ _. exact IH.
Qed.

End Framed.

(** Every step but the last of a transform. *)
Ltac framed_step :=
  first
    [ eapply framed_bind; [apply framed_deref|intros ? _]
    | eapply framed_bind; [apply framed_logging|intros ? _]
    | eapply framed_bind; [apply framed_lift|intros ? ?]
    | eapply framed_bind; [apply framed_alloc|intros ? ?] ].

Ltac framed_end :=
  first
    [ eapply framed_weaken; [apply framed_alloc|intros; exact I]
    | apply framed_raise
    | apply framed_ret; exact I ].

Section TransformsFramed.

Variable Image_rotate : PyVal -> PIL.Image -> Res PIL.Image.
Variable n : nat.

Lemma rotate_image_framed (image : ref) (args : list PyVal) :
  framed n (__rotate_image Image_rotate image args) any.
Proof.
  unfold __rotate_image. destruct args; repeat framed_step; framed_end.
Qed.

Lemma invert_image_framed (image : ref) (args : list PyVal) :
  framed n (__invert_image image args) any.
Proof.
  unfold __invert_image. framed_step.
  destruct (PIL.mode _).
  - repeat framed_step; framed_end.
  - destruct (PIL.split _) as [|? [|? [|? [|? [|]]]]];
      repeat framed_step; framed_end.
Qed.

Lemma mirror_image_framed (image : ref) (args : list PyVal) :
  framed n (__mirror_image image args) any.
Proof. unfold __mirror_image. framed_step. framed_end. Qed.

Lemma flip_image_framed (image : ref) (args : list PyVal) :
  framed n (__flip_image image args) any.
Proof. unfold __flip_image. framed_step. framed_end. Qed.

Lemma Image_new_framed (m : PIL.Mode) (w h : PyVal) :
  framed n (Image_new m w h) (fun r => (n <= fst r)%nat).
Proof.
  unfold Image_new.
  destruct (negative w || negative h); [apply framed_raise|].
  destruct w, h; try apply framed_raise.
  framed_step. framed_step. apply framed_ret. assumption.
Qed.

Lemma repeat_image_framed (image : ref) (args : list PyVal) :
  framed n (__repeat_image image args) any.
Proof.
  unfold __repeat_image. do 3 framed_step.
  eapply framed_bind; [apply Image_new_framed|intros new Hnew].
  framed_step.
  eapply framed_bind; [|intros; apply framed_ret; exact I].
  apply framed_for_each. intros h.
  framed_step. apply framed_for_each. intros x.
  apply framed_paste. exact Hnew.
Qed.

(** Whatever the key and the arguments, the transform that
    [apply_image_transform] calls leaves the window, the workers and the
    images that exist alone, whether it returns or raises. *)
Lemma call_transform_framed (transform_type : string) (image : ref)
    (args : list PyVal) :
  framed n (call (transform_dict Image_rotate transform_type) image args) any.
Proof.
  unfold transform_dict, call.
  repeat match goal with
         | |- context [if ?b then _ else _] => destruct b
         end.
  - apply invert_image_framed.
  - apply repeat_image_framed.
  - apply mirror_image_framed.
  - apply flip_image_framed.
  - apply rotate_image_framed.
  - apply framed_raise.
Qed.

End TransformsFramed.

(** ** Transforms without a pattern *)

(** C10.  With no pattern loaded, [apply_image_transform] returns at once
    and leaves the world as it is, whatever the transform and its
    arguments; so do the six menu actions. *)
Theorem apply_image_transform_without_pattern
    (Image_rotate : PyVal -> PIL.Image -> Res PIL.Image) (w : World) :
  pil_image (self w) = None ->
  (forall transform_type args,
     apply_image_transform Image_rotate transform_type args w = (Ret tt, w)) /\
  invert_image Image_rotate w = (Ret tt, w) /\
  (forall v h, repeat_image Image_rotate v h w = (Ret tt, w)) /\
  mirror_image Image_rotate w = (Ret tt, w) /\
  flip_image Image_rotate w = (Ret tt, w) /\
  rotate_left Image_rotate w = (Ret tt, w) /\
  rotate_right Image_rotate w = (Ret tt, w).
Proof.
  intros Hp.
  assert (H : forall transform_type args,
             apply_image_transform Image_rotate transform_type args w = (Ret tt, w)).
  { intros ty args. unfold apply_image_transform, bind, gets.
    rewrite Hp. reflexivity. }
  repeat split; intros; apply H.
Qed.

(** ** Switching the plugin *)

(** A call of a method of a plugin that has its object: the call is
    recorded and the method runs on the widgets. *)
Lemma call_hook_run (info : PluginInfo) (o : PluginObject) (attr : string)
    (hn : HookName) (sel : PluginObject -> Hook) (w : World) :
  plugin_object info = Some o ->
  call_hook (Some info) attr hn sel w
  = (fst (sel o (ui (self w))),
     mkWorld (with_ui (snd (sel o (ui (self w)))) (self w)) (heap w)
             (trace w ++ [Called (name info) hn]) (running w)).
Proof.
  intros Ho. unfold call_hook, plugin_attr, bind, run_hook. rewrite Ho.
  cbn. destruct (sel o (ui (self w))); reflexivity.
Qed.

(** C9.  When a plugin [old] is enabled and [set_enabled_plugin] is
    called with the name of a plugin [new] of the plugin manager, the
    teardown of [old] runs, then the setup of [new] runs on the widgets
    the teardown left; [new] is the enabled plugin afterwards and is
    returned.  Nothing is assumed about the teardown: it may raise, and
    what it did to the widgets before it raised stays. *)
Theorem set_enabled_plugin_switches (w : World) (n : string)
    (old new : PluginInfo) (oo no : PluginObject) :
  enabled_plugin (self w) = Some old -> plugin_object old = Some oo ->
  n <> "" ->
  getPluginByName (pm (self w)) n = Some new -> plugin_object new = Some no ->
  fst (set_enabled_plugin (Some n) w) = Ret (Some new) /\
  enabled_plugin (self (snd (set_enabled_plugin (Some n) w))) = Some new /\
  ui (self (snd (set_enabled_plugin (Some n) w)))
  = snd (setup_ui no (snd (cleanup_ui oo (ui (self w))))) /\
  exists rest,
    trace (snd (set_enabled_plugin (Some n) w))
    = (trace w ++ Called (name old) H_cleanup_ui
               :: Called (name new) H_setup_ui :: rest)%list.
Proof.
  intros He Ho Hn Hg Hno.
  apply String.eqb_neq in Hn.
  unfold set_enabled_plugin, bind, try_except, gets.
  rewrite He, (call_hook_run _ _ _ _ _ _ Ho), Hn.
  destruct (cleanup_ui oo (ui (self w))) as [[[]|e] u];
    cbn [fst snd ret modify self heap trace running with_ui
         with_enabled_plugin enabled_plugin pm];
    rewrite Hg, (call_hook_run _ _ _ _ _ _ Hno);
    cbn [fst snd self heap trace running ui with_ui with_enabled_plugin];
    destruct (self w);
    cbn [fst snd self heap trace running ui with_ui with_enabled_plugin];
    destruct (setup_ui no u) as [[[]|e'] u'];
    cbn; rewrite <- ?app_assoc; cbn;
    (split; [reflexivity|split; [reflexivity|split;
       [reflexivity|eexists; reflexivity]]]).
Qed.

(** ** Starting the knitting *)

(** C2, as the code has it.  [start_knitting_process] does not look at
    the workers that run: whenever a plugin with its object is enabled, it
    returns, disables what must not be touched while knitting (the knit
    button among it), enables the cancel button and starts one more
    worker on the plugin's [knit]. *)
Theorem start_knitting_process_starts_worker (w : World) (p : PluginInfo)
    (o : PluginObject) :
  enabled_plugin (self w) = Some p -> plugin_object p = Some o ->
  let t := mkGenericThread (knit o) ["parent_window"] in
  let w' := snd (start_knitting_process w) in
  fst (start_knitting_process w) = Ret tt /\
  running w' = (running w ++ [t])%list /\
  gt (self w') = Some t /\
  knit_button (ui (self w')) = false /\
  cancel_button (ui (self w')) = true /\
  menuTools (ui (self w')) = false /\
  widget_imgload (ui (self w')) = false /\
  menuImage_Actions (ui (self w')) = false /\
  widget_optionsdock (ui (self w')) = false.
Proof.
  intros He Ho.
  unfold start_knitting_process, bind, modify_ui, modify, gets, plugin_attr.
  cbn [fst snd self heap trace running enabled_plugin with_ui].
  rewrite He, Ho. cbn. repeat split; reflexivity.
Qed.

(** ** The worker *)

(** C4.  When the function of the worker raises [e], [run] returns and
    logs [e] if [e] is an instance of [FysomError], and raises [e] itself
    otherwise; so [run] returns exactly for the instances of
    [FysomError]. *)
Theorem GenericThread_run_absorbs_FysomError_only (t : GenericThread)
    (e : Exn) (w : World) :
  function t (kwargs t) = Raise e ->
  (isinstance_FysomError e = true ->
     GenericThread_run t w
     = (Ret tt, mkWorld (self w) (heap w)
                        (trace w ++ [Log ERROR (exn_msg e)]) (running w))) /\
  (isinstance_FysomError e = false -> GenericThread_run t w = (Raise e, w)) /\
  (fst (GenericThread_run t w) = Ret tt <-> isinstance_FysomError e = true).
Proof.
  intros Hf.
  unfold GenericThread_run, bind, try_except_FysomError, lift. rewrite Hf.
  destruct (isinstance_FysomError e); cbn.
  - repeat split; intros; try reflexivity; discriminate.
  - repeat split; intros; try reflexivity; discriminate.
Qed.

(** ** A transform that fails *)

Lemma keeps_pattern_refl (w : World) : keeps_pattern w w.
Proof. repeat split. exists []. symmetry. apply app_nil_r. Qed.


Lemma call_hook_keeps_pattern (p : option PluginInfo) (attr : string)
    (hn : HookName) (sel : PluginObject -> Hook) (w : World) :
  keeps_pattern w (snd (call_hook p attr hn sel w)).
Proof.
  destruct p as [info|]; [|apply keeps_pattern_refl].
  destruct (plugin_object info) as [o|] eqn:Ho.
  - rewrite (call_hook_run _ _ _ _ _ _ Ho). cbn.
    repeat split. eexists. reflexivity.
  - unfold call_hook, plugin_attr, bind. rewrite Ho. apply keeps_pattern_refl.
Qed.

Lemma refresh_scene_keeps_pattern (w : World) :
  keeps_pattern w (snd (refresh_scene w)).
Proof.
  unfold refresh_scene, the_pil_image, bind, gets, deref.
  destruct (pil_image (self w)) as [r|]; [|apply keeps_pattern_refl].
  destruct (lookup w r) as [im|]; cbn [fst snd]; [|apply keeps_pattern_refl].
  cbn [fst snd set_dimensions_on_gui modify_ui modify self heap trace running
       imageAlignment start_needle stop_needle var_progress zoomlevel ui
       with_ui with_dimensions_label].
  cases_of_alignment; cbn; repeat split;
    solve [exists []; symmetry; apply app_nil_r | eexists; reflexivity].
Qed.



Lemma lookup_kept (w w' : World) (r : ref) :
  keeps_pattern w w' -> lookup w' r = lookup w r.
Proof. intros (_ & H & _). unfold lookup. rewrite H. reflexivity. Qed.


(** ** Pixels *)

Lemma nth_tabulate {A : Type} (n k : nat) (f : Z -> A) (d : A) :
  (k < n)%nat -> nth k (PIL.tabulate n f) d = f (Z.of_nat k).
Proof.
  intros H. unfold PIL.tabulate.
  rewrite (nth_indep _ d (f (Z.of_nat 0)))
    by (rewrite length_map, length_seq; exact H).
  rewrite (map_nth (fun k => f (Z.of_nat k))), seq_nth by exact H.
  reflexivity.
Qed.

Lemma plane_get_plane_of (w h : Z) (f : Z -> Z -> Z) (x y : Z) :
  0 <= x < w -> 0 <= y < h ->
  PIL.plane_get w (PIL.plane_of w h f) x y = f x y.
Proof.
  intros Hx Hy. unfold PIL.plane_get, PIL.plane_of.
  assert (Hk : 0 <= y * w + x < w * h) by nia.
  rewrite nth_tabulate by lia.
  rewrite Z2Nat.id by lia.
  f_equal.
  - rewrite Z.add_comm, Z_mod_plus_full. apply Z.mod_small. exact Hx.
  - rewrite Z.add_comm, Z_div_plus_full by lia.
    rewrite Z.div_small by exact Hx. reflexivity.
Qed.

Lemma map_fst_combine {A B C : Type} (g : A -> C) (l1 : list A) (l2 : list B) :
  length l1 = length l2 ->
  map (fun p => g (fst p)) (combine l1 l2) = map g l1.
Proof.
  revert l2. induction l1 as [|a l1 IH]; intros [|b l2] H; cbn in *;
    try discriminate; auto.
  f_equal. apply IH. lia.
Qed.

Lemma map_snd_combine {A B C : Type} (g : B -> C) (l1 : list A) (l2 : list B) :
  length l1 = length l2 ->
  map (fun p => g (snd p)) (combine l1 l2) = map g l2.
Proof.
  revert l2. induction l1 as [|a l1 IH]; intros [|b l2] H; cbn in *;
    try discriminate; auto.
  f_equal. apply IH. lia.
Qed.

(** A pixel after a paste: inside the box it comes from the source,
    converted; outside it is what it was. *)
Lemma getpixel_pasted (dst src : PIL.Image) (x0 y0 x y : Z) :
  let s := PIL.convert (PIL.mode dst) src in
  0 <= x < PIL.width dst -> 0 <= y < PIL.height dst ->
  length (PIL.bands dst) = length (PIL.bands s) ->
  PIL.getpixel (PIL.pasted dst src x0 y0) x y
  = if PIL.in_box x0 y0 (PIL.width s) (PIL.height s) x y
    then PIL.getpixel s (x - x0) (y - y0)
    else PIL.getpixel dst x y.
Proof.
  intros s Hx Hy Hb. unfold PIL.getpixel, PIL.pasted. fold s.
  cbn [PIL.bands PIL.width PIL.height PIL.size fst snd].
  change (fst (PIL.size dst)) with (PIL.width dst).
  change (snd (PIL.size dst)) with (PIL.height dst).
  rewrite map_map.
  rewrite (map_ext _ (fun pp : list Z * list Z =>
             if PIL.in_box x0 y0 (PIL.width s) (PIL.height s) x y
             then PIL.plane_get (PIL.width s) (snd pp) (x - x0) (y - y0)
             else PIL.plane_get (PIL.width dst) (fst pp) x y))
    by (intros pp;
        exact (plane_get_plane_of (PIL.width dst) (PIL.height dst)
                 (fun x y =>
                    if PIL.in_box x0 y0 (PIL.width s) (PIL.height s) x y
                    then PIL.plane_get (PIL.width s) (snd pp) (x - x0) (y - y0)
                    else PIL.plane_get (PIL.width dst) (fst pp) x y)
                 x y Hx Hy)).
  destruct (PIL.in_box x0 y0 (PIL.width s) (PIL.height s) x y).
  - apply (map_snd_combine (fun pl => PIL.plane_get (PIL.width s) pl (x - x0) (y - y0))).
    exact Hb.
  - apply (map_fst_combine (fun pl => PIL.plane_get (PIL.width dst) pl x y)).
    exact Hb.
Qed.

Lemma convert_size (m : PIL.Mode) (im : PIL.Image) :
  PIL.size (PIL.convert m im) = PIL.size im.
Proof. unfold PIL.convert. destruct (PIL.mode im), m; reflexivity. Qed.

Lemma convert_RGB_bands (im : PIL.Image) :
  length (PIL.bands im) = PIL.getbands (PIL.mode im) ->
  length (PIL.bands (PIL.convert PIL.RGB im)) = 3%nat.
Proof.
  unfold PIL.convert. destruct (PIL.mode im); intros H.
  - exact H.
  - cbn [PIL.bands]. rewrite length_firstn, H. reflexivity.
Qed.

Lemma pasted_is_RGB (sz : Z * Z) (cur im : PIL.Image) (x y : Z) :
  length (PIL.bands im) = PIL.getbands (PIL.mode im) ->
  is_RGB sz cur -> is_RGB sz (PIL.pasted cur im x y).
Proof.
  intros Him (Hm & Hs & Hb). unfold is_RGB, PIL.pasted. cbn.
  repeat split; auto.
  rewrite length_map, length_combine, Hb, Hm, convert_RGB_bands by exact Him.
  reflexivity.
Qed.

(** ** Repeat *)

Lemma update_app_last {A : Type} (l : list A) (c v : A) :
  update (l ++ [c]) (length l) v = (l ++ [v])%list.
Proof. induction l as [|x l IH]; cbn; [reflexivity|]. f_equal. exact IH. Qed.

Lemma nth_error_app_last {A : Type} (l : list A) (c : A) :
  nth_error (l ++ [c]) (length l) = Some c.
Proof. rewrite nth_error_app2, Nat.sub_diag by lia. reflexivity. Qed.

Lemma nth_error_app_old {A : Type} (l : list A) (c x : A) (r : nat) :
  nth_error l r = Some x -> nth_error (l ++ [c]) r = Some x.
Proof.
  intros H. rewrite nth_error_app1; [exact H|].
  apply nth_error_Some. congruence.
Qed.

Section PasteLoops.

Variables (g : GuiMain) (h0 : list PIL.Image) (t : list Event)
          (rn : list GenericThread) (src : ref) (im : PIL.Image).
Hypothesis Hsrc : nth_error h0 src = Some im.

(** One paste into the image allocated last. *)
Lemma paste_run (cur : PIL.Image) (x y : Z) :
  paste (length h0) src (x, y) (mkWorld g (h0 ++ [cur]) t rn)
  = (Ret tt, mkWorld g (h0 ++ [PIL.pasted cur im x y]) t rn).
Proof.
  unfold paste, bind, deref, store, lookup. cbn [heap self trace running].
  rewrite nth_error_app_last. cbn [heap self trace running].
  rewrite (nth_error_app_old _ _ _ _ Hsrc). cbn [fst snd heap self trace running].
  rewrite update_app_last. reflexivity.
Qed.

(** The inner loop. *)
Lemma paste_row_run (ws : list Z) (y : Z) (cur : PIL.Image) :
  for_each ws (fun x => paste (length h0) src (x, y))
           (mkWorld g (h0 ++ [cur]) t rn)
  = (Ret tt, mkWorld g (h0 ++ [paste_row im ws y cur]) t rn).
Proof.
  revert cur. induction ws as [|x ws IH]; intros cur; cbn [for_each].
  - reflexivity.
  - rewrite (bind_Ret _ _ _ _ _ (paste_run cur x y)). apply IH.
Qed.

(** The outer loop. *)
Lemma paste_rows_run (new_w old_w : Z) (ws hs : list Z) (cur : PIL.Image) :
  range 0 new_w old_w = Ret ws ->
  for_each hs (fun y =>
      bind (lift (range 0 new_w old_w)) (fun ws =>
        for_each ws (fun x => paste (length h0) src (x, y))))
    (mkWorld g (h0 ++ [cur]) t rn)
  = (Ret tt, mkWorld g (h0 ++ [paste_rows im ws hs cur]) t rn).
Proof.
  intros Hr. revert cur. induction hs as [|y hs IH]; intros cur; cbn [for_each].
  - reflexivity.
  - erewrite bind_Ret; [apply IH|].
    erewrite bind_Ret; [apply paste_row_run|].
    unfold lift. rewrite Hr. reflexivity.
Qed.

End PasteLoops.

Section TilePixels.

Variables (im : PIL.Image) (sz : Z * Z) (x y : Z) (px : list Z).
Hypothesis Him : length (PIL.bands im) = PIL.getbands (PIL.mode im).
Hypothesis Hx : 0 <= x < fst sz.
Hypothesis Hy : 0 <= y < snd sz.

Lemma pasted_pixel (cur : PIL.Image) (x0 y0 : Z) :
  is_RGB sz cur ->
  PIL.getpixel (PIL.pasted cur im x0 y0) x y
  = if covers im x0 y0 x y then brought im x0 y0 x y else PIL.getpixel cur x y.
Proof.
  intros (Hm & Hs & Hb).
  rewrite getpixel_pasted.
  - rewrite Hm. unfold covers, brought, PIL.width, PIL.height.
    rewrite convert_size. reflexivity.
  - unfold PIL.width. rewrite Hs. exact Hx.
  - unfold PIL.height. rewrite Hs. exact Hy.
  - rewrite Hm, Hb, convert_RGB_bands by exact Him. reflexivity.
Qed.

Lemma paste_row_is_RGB (ws : list Z) (y0 : Z) (cur : PIL.Image) :
  is_RGB sz cur -> is_RGB sz (paste_row im ws y0 cur).
Proof.
  revert cur. induction ws as [|x0 ws IH]; intros cur H; cbn; [exact H|].
  apply IH. apply pasted_is_RGB; assumption.
Qed.

(** After a row of pastes the pixel is [px] if it was [px] before or some
    paste covers it, provided every paste that covers it brings [px]. *)
Lemma paste_row_pixel (ws : list Z) (y0 : Z) (cur : PIL.Image) :
  is_RGB sz cur ->
  (forall x0, In x0 ws -> covers im x0 y0 x y = true -> brought im x0 y0 x y = px) ->
  PIL.getpixel cur x y = px \/ (exists x0, In x0 ws /\ covers im x0 y0 x y = true) ->
  PIL.getpixel (paste_row im ws y0 cur) x y = px.
Proof.
  revert cur. induction ws as [|x0 ws IH]; intros cur Hc Hall Hex.
  - destruct Hex as [H|(x0 & [] & _)]. exact H.
  - cbn. apply IH.
    + apply pasted_is_RGB; assumption.
    + intros x1 H1. apply Hall. right. exact H1.
    + rewrite (pasted_pixel cur x0 y0 Hc).
      destruct (covers im x0 y0 x y) eqn:E.
      * left. apply Hall; [left; reflexivity|exact E].
      * destruct Hex as [H|(x1 & [->|H1] & E1)].
        -- left. exact H.
        -- congruence.
        -- right. exists x1. split; assumption.
Qed.

Lemma paste_rows_pixel (ws hs : list Z) (cur : PIL.Image) :
  is_RGB sz cur ->
  (forall x0 y0, In x0 ws -> In y0 hs -> covers im x0 y0 x y = true ->
                 brought im x0 y0 x y = px) ->
  PIL.getpixel cur x y = px \/
    (exists x0 y0, In x0 ws /\ In y0 hs /\ covers im x0 y0 x y = true) ->
  PIL.getpixel (paste_rows im ws hs cur) x y = px.
Proof.
  revert cur. induction hs as [|y0 hs IH]; intros cur Hc Hall Hex.
  - destruct Hex as [H|(x0 & y0 & _ & [] & _)]. exact H.
  - cbn. apply IH.
    + apply paste_row_is_RGB. exact Hc.
    + intros x1 y1 Hx1 Hy1. apply Hall; [exact Hx1|right; exact Hy1].
    + destruct Hex as [H|(x1 & y1 & Hx1 & [->|Hy1] & E)].
      * left. apply paste_row_pixel; [exact Hc| |left; exact H].
        intros x1 Hx1. apply Hall; [exact Hx1|left; reflexivity].
      * left. apply paste_row_pixel; [exact Hc| |right; exists x1; auto].
        intros x2 Hx2. apply Hall; [exact Hx2|left; reflexivity].
      * right. exists x1, y1. auto.
Qed.

Lemma paste_rows_is_RGB (ws hs : list Z) (cur : PIL.Image) :
  is_RGB sz cur -> is_RGB sz (paste_rows im ws hs cur).
Proof.
  revert cur. induction hs as [|y0 hs IH]; intros cur H; cbn; [exact H|].
  apply IH. apply paste_row_is_RGB. exact H.
Qed.

End TilePixels.

(** [range(0, step * count, step)] is [0, step, ..., step * (count - 1)]. *)
Lemma range_multiples (step count : Z) :
  0 < step -> 0 <= count ->
  range 0 (step * count) step
  = Ret (map (fun k => Z.of_nat k * step) (seq 0 (Z.to_nat count))).
Proof.
  intros Hs Hc. unfold range.
  destruct (Z.eqb_spec step 0); [lia|].
  destruct (Z.ltb_spec 0 step); [|lia].
  replace ((step * count - 0 + step - 1) / step) with count.
  - reflexivity.
  - replace (step * count - 0 + step - 1) with (count * step + (step - 1)) by lia.
    rewrite Z.div_add_l, Z.div_small by lia. lia.
Qed.

Lemma In_multiples (step count z : Z) :
  In z (map (fun k => Z.of_nat k * step) (seq 0 (Z.to_nat count))) <->
  exists i, 0 <= i < count /\ z = i * step.
Proof.
  rewrite in_map_iff. split.
  - intros (k & <- & Hk). apply in_seq in Hk. exists (Z.of_nat k). lia.
  - intros (i & Hi & ->). exists (Z.to_nat i). split.
    + rewrite Z2Nat.id by lia. reflexivity.
    + apply in_seq. lia.
Qed.

Lemma getpixel_convert_RGB (im : PIL.Image) (x y : Z) :
  length (PIL.bands im) = PIL.getbands (PIL.mode im) ->
  PIL.getpixel (PIL.convert PIL.RGB im) x y = firstn 3 (PIL.getpixel im x y).
Proof.
  intros H. unfold PIL.getpixel, PIL.convert, PIL.width.
  destruct (PIL.mode im); cbn [PIL.bands PIL.size PIL.copy].
  - rewrite firstn_all2; [reflexivity|]. rewrite length_map, H. cbn. lia.
  - symmetry. apply firstn_map.
Qed.

Lemma in_box_true (x0 y0 w h x y : Z) :
  PIL.in_box x0 y0 w h x y = true <->
  x0 <= x < x0 + w /\ y0 <= y < y0 + h.
Proof.
  unfold PIL.in_box. rewrite !andb_true_iff, !Z.leb_le, !Z.ltb_lt. lia.
Qed.

(** What [__repeat_image] does on a well-formed pattern with counts that
    are at least 1. *)
Lemma repeat_image_run (image : ref) (v h : Z) (w : World) (im : PIL.Image) :
  lookup w image = Some im -> PIL.wf_image im -> 1 <= v -> 1 <= h ->
  exists out,
    __repeat_image image [PyInt v; PyInt h] w
    = (Ret (length (heap w)),
       mkWorld (self w) (heap w ++ [out]) (trace w) (running w)) /\
    is_RGB (PIL.width im * h, PIL.height im * v) out /\
    forall i j x y,
      0 <= i < h -> 0 <= j < v ->
      0 <= x < PIL.width im -> 0 <= y < PIL.height im ->
      PIL.getpixel out (i * PIL.width im + x) (j * PIL.height im + y)
      = PIL.getpixel (PIL.convert PIL.RGB im) x y.
Proof.
  intros Hl (Hw & Hh & Hb & _) Hv Hhh.
  destruct w as [g h0 t rn]. unfold lookup in Hl. cbn [heap self trace running] in *.
  set (ow := PIL.width im) in *. set (oh := PIL.height im) in *.
  set (ws := map (fun k => Z.of_nat k * ow) (seq 0 (Z.to_nat h))).
  set (hs := map (fun k => Z.of_nat k * oh) (seq 0 (Z.to_nat v))).
  set (black := PIL.mkImage PIL.RGB (ow * h, oh * v)
                  (repeat (repeat 0 (Z.to_nat (ow * h * (oh * v)))) 3)).
  assert (Hblack : is_RGB (ow * h, oh * v) black) by (repeat split).
  exists (paste_rows im ws hs black). split; [|split].
  - unfold __repeat_image.
    erewrite bind_Ret by (unfold deref, lookup; cbn [heap]; rewrite Hl; reflexivity).
    cbn [item nth_error lift mul].
    erewrite bind_Ret by reflexivity.
    erewrite bind_Ret by reflexivity.
    change (fst (PIL.size im)) with ow. change (snd (PIL.size im)) with oh.
    erewrite bind_Ret.
    2:{ unfold Image_new, PIL.new. cbn [mul negative].
        destruct (Z.ltb_spec (ow * h) 0); [nia|].
        destruct (Z.ltb_spec (oh * v) 0); [nia|].
        cbn [orb]. unfold bind, lift, alloc, ret.
        cbn [fst snd heap self trace running]. reflexivity. }
    cbn [fst snd PIL.getbands].
    erewrite bind_Ret
      by (unfold lift; rewrite (range_multiples oh v) by lia; reflexivity).
    erewrite bind_Ret.
    2:{ apply (paste_rows_run g h0 t rn image im Hl (ow * h) ow ws).
        apply range_multiples; lia. }
    reflexivity.
  - apply paste_rows_is_RGB; assumption.
  - intros i j x y Hi Hj Hx Hy.
    apply (paste_rows_pixel im (ow * h, oh * v)); cbn [fst snd];
      try assumption; try nia.
    + intros x0 y0 Hx0 Hy0 Hc.
      apply In_multiples in Hx0, Hy0.
      destruct Hx0 as (a & Ha & ->). destruct Hy0 as (b & Hb0 & ->).
      apply in_box_true in Hc. fold ow oh in Hc.
      assert (a = i) by nia. assert (b = j) by nia. subst a b.
      unfold brought. f_equal; lia.
    + right. exists (i * ow), (j * oh). repeat split.
      * apply In_multiples. exists i. lia.
      * apply In_multiples. exists j. lia.
      * apply in_box_true. fold ow oh. lia.
Qed.

(** C5, as the code has it.  For a well-formed pattern and counts
    [v >= 1], [h >= 1], [__repeat_image] returns a new ["RGB"] image of
    size [(width * h, height * v)], and leaves the pattern as it is.  For
    [0 <= i < h] and [0 <= j < v] the pixels of the tile [(i, j)] are the
    red, green and blue of the pixels of the pattern: the pattern itself
    if it is ["RGB"], the pattern without its transparency if it is
    ["RGBA"]. *)
Theorem repeat_image_tiles (image : ref) (v h : Z) (w : World) (im : PIL.Image) :
  lookup w image = Some im -> PIL.wf_image im -> 1 <= v -> 1 <= h ->
  let result := __repeat_image image [PyInt v; PyInt h] w in
  exists new_im out,
    fst result = Ret new_im /\
    lookup w new_im = None /\
    lookup (snd result) new_im = Some out /\
    lookup (snd result) image = Some im /\
    PIL.mode out = PIL.RGB /\
    PIL.size out = (PIL.width im * h, PIL.height im * v) /\
    forall i j x y,
      0 <= i < h -> 0 <= j < v ->
      0 <= x < PIL.width im -> 0 <= y < PIL.height im ->
      PIL.getpixel out (i * PIL.width im + x) (j * PIL.height im + y)
      = firstn 3 (PIL.getpixel im x y) /\
      (PIL.mode im = PIL.RGB ->
       PIL.getpixel out (i * PIL.width im + x) (j * PIL.height im + y)
       = PIL.getpixel im x y).
Proof.
  intros Hl Hwf Hv Hh result. subst result.
  destruct (repeat_image_run image v h w im Hl Hwf Hv Hh)
    as (out & -> & (Hm & Hs & _) & Hpx).
  destruct Hwf as (_ & _ & Hb & _).
  exists (length (heap w)), out. cbn [fst snd]. unfold lookup in *. cbn [heap].
  split; [reflexivity|].
  split; [apply nth_error_None; lia|].
  split; [apply nth_error_app_last|].
  split; [apply nth_error_app_old; exact Hl|].
  split; [exact Hm|]. split; [exact Hs|].
  intros i j x y Hi Hj Hx Hy.
  rewrite (Hpx i j x y Hi Hj Hx Hy), (getpixel_convert_RGB im x y Hb).
  split; [reflexivity|].
  intros Hrgb. apply firstn_all2.
  unfold PIL.getpixel. rewrite length_map, Hb, Hrgb. cbn. lia.
Qed.

(** ** Invert *)

(** C8.  [__invert_image] returns a new ["RGB"] image of the size of the
    pattern whose bands are the red, green and blue bands of the pattern
    with every value [v] replaced by [255 - v]: the transparency band of
    an ["RGBA"] pattern is dropped, every band of an ["RGB"] pattern is
    inverted.  The pattern, like every image that existed, is as it
    was. *)
Theorem invert_image_inverts (image : ref) (args : list PyVal) (w : World)
    (im : PIL.Image) :
  lookup w image = Some im ->
  length (PIL.bands im) = PIL.getbands (PIL.mode im) ->
  let result := __invert_image image args w in
  exists inverted out,
    fst result = Ret inverted /\
    lookup w inverted = None /\
    lookup (snd result) inverted = Some out /\
    (forall r x, lookup w r = Some x -> lookup (snd result) r = Some x) /\
    self (snd result) = self w /\
    PIL.mode out = PIL.RGB /\
    PIL.size out = PIL.size im /\
    PIL.bands out = map (map (fun v => 255 - v)) (firstn 3 (PIL.bands im)) /\
    (PIL.mode im = PIL.RGB ->
     PIL.bands out = map (map (fun v => 255 - v)) (PIL.bands im)).
Proof.
  intros Hl Hb result. subst result.
  unfold __invert_image.
  erewrite bind_Ret by (unfold deref; rewrite Hl; reflexivity).
  unfold lookup in *.
  destruct im as [m sz bs]. cbn [PIL.mode PIL.bands PIL.size] in *.
  destruct m; cbn [PIL.getbands] in Hb.
  - (* RGB *)
    exists (length (heap w)). eexists.
    unfold bind, lift, alloc, PIL.ImageOps_invert.
    cbn [PIL.mode PIL.size PIL.bands fst snd heap self trace running].
    split; [reflexivity|].
    split; [apply nth_error_None; lia|].
    split; [apply nth_error_app_last|].
    split; [intros r x Hr; apply nth_error_app_old; exact Hr|].
    split; [reflexivity|]. split; [reflexivity|]. split; [reflexivity|].
    split; [|reflexivity].
    rewrite firstn_all2 by lia. reflexivity.
  - (* RGBA *)
    destruct bs as [|r [|g [|b [|a [|]]]]]; try discriminate Hb.
    exists (S (length (heap w))). eexists.
    unfold bind, lift, alloc, PIL.ImageOps_invert, PIL.merge, PIL.split,
      PIL.sizes_agree.
    cbn [map length PIL.getbands Nat.eqb negb forallb PIL.band_size
         PIL.band_data PIL.size PIL.bands PIL.mode fst snd].
    rewrite !Z.eqb_refl.
    cbn [andb negb PIL.mode PIL.size PIL.bands fst snd heap self trace running].
    split; [rewrite length_app; cbn [length]; rewrite Nat.add_1_r; reflexivity|].
    split; [apply nth_error_None; lia|].
    split.
    { rewrite <- (Nat.add_1_r (length (heap w))).
      replace (length (heap w) + 1)%nat
        with (length (heap w ++ [PIL.mkImage PIL.RGB sz [r; g; b]]))
        by (rewrite length_app; reflexivity).
      apply nth_error_app_last. }
    split; [intros k x Hk; do 2 apply nth_error_app_old; exact Hk|].
    split; [reflexivity|]. split; [reflexivity|]. split; [reflexivity|].
    split; [reflexivity|]. intros H. discriminate H.
Qed.


(** * Further properties *)

(** ** Rendering, continued *)

(** X1.  The progress line spans the machine and lies [var_progress] rows
    above the bottom of the pattern, whatever the alignment. *)
Theorem refresh_scene_progress_line (w : World) (r : ref) (im : PIL.Image) :
  pil_image (self w) = Some r -> lookup w r = Some im ->
  progress_line_at (snd (refresh_scene w))
                   (inject_Z (PIL.height im) - inject_Z (var_progress (self w))).
Proof.
  intros Hp Hl. unfold progress_line_at, PIL.height.
  run_refresh_scene Hp Hl.
  cases_of_alignment; cbn.
  all: eexists _, _, _; split; [reflexivity|].
  all: repeat split; try reflexivity; Q_of_Z.
Qed.

(** X2.  The two halves of the machine are drawn in every rendering, whatever
    the alignment: the left half from -100 to 0 with an orange brush, the
    right half from 0 to 100 with a green one, both 5 high above the
    pattern; nothing else in the scene has a brush. *)
Theorem refresh_scene_draws_machine (w : World) (r : ref) (im : PIL.Image) :
  pil_image (self w) = Some r -> lookup w r = Some im ->
  machine_in_colour (snd (refresh_scene w)).
Proof.
  intros Hp Hl. unfold machine_in_colour.
  run_refresh_scene Hp Hl.
  cases_of_alignment; cbn.
  all: eexists _, _; split; [reflexivity|].
  all: split; repeat split; reflexivity.
Qed.

(** X3.  Before a pattern is loaded the slots of the needles, the alignment
    and the progress store what they are given and then raise an
    [AttributeError] from [refresh_scene]; nothing is drawn. *)
Theorem slots_without_pattern (w : World) :
  pil_image (self w) = None ->
  refresh_scene w = (Raise (NoneType_has_no "size"), w) /\
  (forall a b,
     slotUpdateNeedles a b w
     = (Raise (NoneType_has_no "size"),
        mkWorld (with_needles a b (self w)) (heap w) (trace w) (running w))) /\
  (forall al,
     slotUpdateAlignment al w
     = (Raise (NoneType_has_no "size"),
        mkWorld (with_imageAlignment al (self w)) (heap w) (trace w) (running w))) /\
  (forall row total,
     updateProgress row total w
     = (Raise (NoneType_has_no "size"),
        mkWorld (with_var_progress row (self w)) (heap w) (trace w) (running w))).
Proof.
  intros Hp.
  assert (H : forall g, pil_image g = None ->
            refresh_scene (mkWorld g (heap w) (trace w) (running w))
            = (Raise (NoneType_has_no "size"),
               mkWorld g (heap w) (trace w) (running w))).
  { intros g Hg. unfold refresh_scene, the_pil_image, bind, gets.
    cbn [self]. rewrite Hg. reflexivity. }
  split; [destruct w; apply H; exact Hp|].
  split; [|split]; intros;
    unfold slotUpdateNeedles, slotUpdateAlignment, updateProgress, bind, modify;
    cbn [fst snd]; rewrite H by (destruct w as [[]]; exact Hp); reflexivity.
Qed.

(** X4.  Rendering twice is rendering once: with an alignment that is known, a
    second [refresh_scene] returns and leaves the world of the first. *)
Theorem refresh_scene_idempotent (w : World) (r : ref) (im : PIL.Image) :
  pil_image (self w) = Some r -> lookup w r = Some im ->
  known_alignment (imageAlignment (self w)) = true ->
  refresh_scene (snd (refresh_scene w)) = (Ret tt, snd (refresh_scene w)).
Proof.
  intros Hp Hl Hk. unfold known_alignment in Hk.
  destruct w as [g h t rn]. destruct g. cbn [self pil_image imageAlignment] in *.
  subst pil_image0. unfold lookup in Hl. cbn [heap] in Hl.
  unfold refresh_scene, the_pil_image, bind, gets, deref, lookup.
  cbn [fst snd self heap trace running pil_image]. rewrite Hl.
  cbn [fst snd set_dimensions_on_gui modify_ui modify self heap trace running
       imageAlignment start_needle stop_needle var_progress zoomlevel ui
       with_ui with_dimensions_label pil_image].
  destruct (String.eqb imageAlignment0 "left") eqn:El.
  { cbn. rewrite Hl. cbn. rewrite El. reflexivity. }
  destruct (String.eqb imageAlignment0 "center") eqn:Ec.
  { cbn. rewrite Hl. cbn. rewrite El, Ec. reflexivity. }
  destruct (String.eqb imageAlignment0 "right") eqn:Er.
  { cbn. rewrite Hl. cbn. rewrite El, Ec, Er. reflexivity. }
  discriminate Hk.
Qed.

(** X5.  What rendering never touches: the pattern and the images, the
    needles, the alignment, the progress, the zoom, the plugins, the
    workers and the enabled flags of the widgets, whether it returns or
    raises. *)
Theorem refresh_scene_frame (w : World) :
  let w' := snd (refresh_scene w) in
  heap w' = heap w /\ running w' = running w /\
  pil_image (self w') = pil_image (self w) /\
  start_needle (self w') = start_needle (self w) /\
  stop_needle (self w') = stop_needle (self w) /\
  imageAlignment (self w') = imageAlignment (self w) /\
  var_progress (self w') = var_progress (self w) /\
  zoomlevel (self w') = zoomlevel (self w) /\
  enabled_plugin (self w') = enabled_plugin (self w) /\
  pm (self w') = pm (self w) /\
  gt (self w') = gt (self w) /\
  enabled_flags (ui (self w')) = enabled_flags (ui (self w)).
Proof.
  intros w'. subst w'.
  unfold refresh_scene, the_pil_image, bind, gets, deref.
  destruct (pil_image (self w)) as [r|] eqn:Hp;
    [|cbn; rewrite Hp; repeat split; reflexivity].
  destruct (lookup w r) as [im|]; cbn [fst snd];
    [|cbn; rewrite Hp; repeat split; reflexivity].
  cbn [fst snd set_dimensions_on_gui modify_ui modify self heap trace running
       imageAlignment start_needle stop_needle var_progress zoomlevel ui
       with_ui with_dimensions_label].
  cases_of_alignment; cbn; rewrite Hp; repeat split; reflexivity.
Qed.

(** ** Zoom *)

(** Rendering gives back the window it got, but for its widgets. *)
Lemma refresh_scene_self (w : World) :
  with_ui (ui (self w)) (self (snd (refresh_scene w))) = self w.
Proof.
  unfold refresh_scene, the_pil_image, bind, gets, deref.
  destruct w as [g h t rn]. destruct g. cbn [self pil_image].
  destruct pil_image0 as [r|]; [|reflexivity].
  destruct (lookup _ r) as [im|]; cbn [fst snd]; [|reflexivity].
  cbn [fst snd set_dimensions_on_gui modify_ui modify self heap trace running
       imageAlignment start_needle stop_needle var_progress zoomlevel ui
       with_ui with_dimensions_label].
  cases_of_alignment; reflexivity.
Qed.

Lemma refresh_scene_scale (w : World) (r : ref) (im : PIL.Image) :
  pil_image (self w) = Some r -> lookup w r = Some im ->
  Qt.view_scale (image_pattern_view (ui (self (snd (refresh_scene w)))))
  = (zoomlevel (self w), zoomlevel (self w)).
Proof.
  intros Hp Hl. run_refresh_scene Hp Hl.
  cases_of_alignment; reflexivity.
Qed.

Lemma Qle_bool_false (a b : Q) : Qle_bool a b = false -> (b < a)%Q.
Proof.
  intros H. apply Qnot_le_lt. intros Hle.
  apply Qle_bool_iff in Hle. congruence.
Qed.

(** X6.  [wheelEvent] does nothing without a pattern.  With one, for a wheel
    angle of [k] steps of 120 and a zoom level that is an integer [n]
    between 1 and 5, as it is at the start and stays, it returns and the
    new level is [n + k] brought into [1, 5]: again such an integer; the
    view is scaled by the new level. *)
Theorem wheelEvent_zoom (angleDelta_y : Z) (w : World) :
  (pil_image (self w) = None -> wheelEvent angleDelta_y w = (Ret tt, w)) /\
  (forall r im k n,
     pil_image (self w) = Some r -> lookup w r = Some im ->
     -2147483648 <= angleDelta_y <= 2147483647 -> angleDelta_y = 120 * k ->
     1 <= n <= 5 -> (zoomlevel (self w) == inject_Z n)%Q ->
     let w' := snd (wheelEvent angleDelta_y w) in
     fst (wheelEvent angleDelta_y w) = Ret tt /\
     (zoomlevel (self w') == inject_Z (Z.max 1 (Z.min 5 (n + k))))%Q /\
     Qt.view_scale (image_pattern_view (ui (self w')))
     = (zoomlevel (self w'), zoomlevel (self w'))).
Proof.
  split.
  - intros Hp. unfold wheelEvent, bind, gets. rewrite Hp. reflexivity.
  - intros r im k n Hp Hl _ Hk Hn Hzoom w'. subst w'.
    set (z := (zoomlevel (self w) + inject_Z angleDelta_y / 120)%Q).
    assert (Hrun : exists w1,
               wheelEvent angleDelta_y w = refresh_scene w1 /\
               zoomlevel (self w1) = clamp_zoom z /\
               pil_image (self w1) = Some r /\ lookup w1 r = Some im).
    { unfold wheelEvent, bind, gets. rewrite Hp.
      cbn [fst snd modify self heap trace running zoomlevel with_zoomlevel].
      fold z. unfold clamp_zoom.
      destruct (Qle_bool z 1); [|destruct (Qle_bool 5 z)];
        cbn [fst snd modify ret self heap trace running zoomlevel with_zoomlevel];
        eexists; (split; [reflexivity|]); cbn; auto. }
    destruct Hrun as (w1 & -> & Hz & Hp1 & Hl1).
    assert (Hz' : zoomlevel (self (snd (refresh_scene w1))) = clamp_zoom z).
    { change (zoomlevel (self (snd (refresh_scene w1))))
        with (zoomlevel (with_ui (ui (self w1)) (self (snd (refresh_scene w1))))).
      rewrite refresh_scene_self. exact Hz. }
    rewrite (refresh_scene_scale w1 r im Hp1 Hl1), Hz', Hz.
    split; [apply (refresh_scene_returns w1 r im Hp1 Hl1)|].
    split; [|reflexivity].
    assert (Hsum : (z == inject_Z (n + k))%Q).
    { unfold z. rewrite Hzoom, Hk, inject_Z_plus, inject_Z_mult.
      change (inject_Z 120) with 120%Q. field. }
    unfold clamp_zoom.
    destruct (Qle_bool z 1) eqn:E1; [|destruct (Qle_bool 5 z) eqn:E5].
    + apply Qle_bool_iff in E1. rewrite Hsum in E1.
      change 1%Q with (inject_Z 1) in E1. rewrite <- Zle_Qle in E1.
      replace (Z.max 1 (Z.min 5 (n + k))) with 1 by lia. reflexivity.
    + apply Qle_bool_iff in E5. rewrite Hsum in E5.
      change 5%Q with (inject_Z 5) in E5. rewrite <- Zle_Qle in E5.
      replace (Z.max 1 (Z.min 5 (n + k))) with 5 by lia. reflexivity.
    + apply Qle_bool_false in E1, E5. rewrite Hsum in E1, E5.
      change 1%Q with (inject_Z 1) in E1. change 5%Q with (inject_Z 5) in E5.
      rewrite <- Zlt_Qlt in E1, E5.
      replace (Z.max 1 (Z.min 5 (n + k))) with (n + k) by lia. exact Hsum.
Qed.

(** ** Progress *)

(** Rendering rewrites the dimensions label and the view and no other
    widget. *)
Lemma refresh_scene_ui (w : World) :
  let u := ui (self w) in
  let u' := ui (self (snd (refresh_scene w))) in
  enabled_flags u' = enabled_flags u /\
  notification_label u' = notification_label u /\
  filename_lineedit u' = filename_lineedit u /\
  statusBar u' = statusBar u /\
  module_dropdown u' = module_dropdown u /\
  module_dropdown_currentText u' = module_dropdown_currentText u.
Proof.
  unfold refresh_scene, the_pil_image, bind, gets, deref.
  destruct (pil_image (self w)) as [r|]; [|cbn; repeat split; reflexivity].
  destruct (lookup w r) as [im|]; cbn [fst snd];
    [|cbn; repeat split; reflexivity].
  cbn [fst snd set_dimensions_on_gui modify_ui modify self heap trace running
       imageAlignment start_needle stop_needle var_progress zoomlevel ui
       with_ui with_dimensions_label].
  cases_of_alignment; cbn; repeat split; reflexivity.
Qed.

(** X7.  With a pattern loaded, [updateProgress row total] returns, stores the
    row and redraws with the progress line [row] rows above the bottom of
    the pattern.  The notification shows ["row/total"] unless [total] is
    0; then it is left as it was. *)
Theorem updateProgress_shows_progress (row total : Z) (w : World) (r : ref)
    (im : PIL.Image) :
  pil_image (self w) = Some r -> lookup w r = Some im ->
  let w' := snd (updateProgress row total w) in
  fst (updateProgress row total w) = Ret tt /\
  var_progress (self w') = row /\
  progress_line_at w' (inject_Z (PIL.height im) - inject_Z row) /\
  (total = 0 ->
   notification_label (ui (self w')) = notification_label (ui (self w))) /\
  (total <> 0 ->
   notification_label (ui (self w')) = str row ++ "/" ++ str total).
Proof.
  intros Hp Hl w'. subst w'.
  set (w1 := mkWorld (with_var_progress row (self w)) (heap w) (trace w)
                     (running w)).
  assert (Hp1 : pil_image (self w1) = Some r) by exact Hp.
  assert (Hl1 : lookup w1 r = Some im) by exact Hl.
  pose proof (refresh_scene_returns w1 r im Hp1 Hl1) as Hret.
  pose proof (refresh_scene_self w1) as Hself.
  pose proof (refresh_scene_ui w1) as (_ & Hn & _).
  assert (Hline : progress_line_at (snd (refresh_scene w1))
                    (inject_Z (PIL.height im) - inject_Z row)).
  { unfold progress_line_at, PIL.height. clear Hret Hself Hn.
    run_refresh_scene Hp1 Hl1.
    cases_of_alignment; cbn.
    all: eexists _, _, _; split; [reflexivity|].
    all: repeat split; try reflexivity; Q_of_Z. }
  unfold updateProgress, bind, modify. cbn [fst snd]. fold w1.
  destruct (refresh_scene w1) as [[[]|e] w2]; cbn [fst snd] in *;
    [|discriminate Hret].
  assert (Hrow : var_progress (self w2) = row).
  { change (var_progress (self w2))
      with (var_progress (with_ui (ui (self w1)) (self w2))).
    rewrite Hself. reflexivity. }
  destruct (Z.eqb_spec total 0) as [E|E]; cbn [negb fst snd].
  - cbn. repeat split; auto; intros; congruence.
  - unfold modify_ui, modify. cbn [fst snd self ui with_ui var_progress].
    split; [reflexivity|]. split; [exact Hrow|].
    split; [exact Hline|]. split; [intros; congruence|].
    intros _. reflexivity.
Qed.

(** ** Knitting *)

(** X8.  Without a plugin, or with a plugin that has no object,
    [start_knitting_process] raises an [AttributeError] after it has
    locked the window: the menus, the loader, the options and the knit
    button are disabled, the cancel button is enabled, and no worker
    was started. *)
Theorem start_knitting_process_without_plugin (w : World) :
  (enabled_plugin (self w) = None \/
   exists p, enabled_plugin (self w) = Some p /\ plugin_object p = None) ->
  let w' := snd (start_knitting_process w) in
  (exists attr, fst (start_knitting_process w) = Raise (NoneType_has_no attr)) /\
  running w' = running w /\ gt (self w') = gt (self w) /\ trace w' = trace w /\
  enabled_flags (ui (self w'))
  = [false; false; false; false; widget_knitcontrol (ui (self w)); false; true].
Proof.
  intros H w'. subst w'.
  unfold start_knitting_process, bind, modify_ui, modify, gets, plugin_attr.
  cbn [fst snd self heap trace running enabled_plugin with_ui].
  destruct H as [H|(p & H & Ho)]; rewrite H; [|rewrite Ho]; cbn;
    (split; [eexists; reflexivity|repeat split]).
Qed.

(** X9.  [cancel_knitting_process] only tells the plugin: the workers and the
    thread of the window are as before, whatever the plugin does; with a
    plugin that has its object, [cancel] is called once and its outcome
    is the outcome of the method. *)
Theorem cancel_knitting_process_is_cooperative (w : World) :
  let w' := snd (cancel_knitting_process w) in
  running w' = running w /\ gt (self w') = gt (self w) /\
  pil_image (self w') = pil_image (self w) /\
  forall p o,
    enabled_plugin (self w) = Some p -> plugin_object p = Some o ->
    fst (cancel_knitting_process w) = fst (cancel o (ui (self w))) /\
    trace w' = (trace w ++ [Called (name p) H_cancel])%list.
Proof.
  intros w'. subst w'.
  unfold cancel_knitting_process, bind, gets. cbn [fst snd].
  destruct (enabled_plugin (self w)) as [p|] eqn:Hp.
  - destruct (plugin_object p) as [o|] eqn:Ho.
    + rewrite (call_hook_run _ _ _ _ _ _ Ho). cbn.
      do 3 (split; [reflexivity|]).
      intros p' o' Hp' Ho'. injection Hp' as <-.
      rewrite Ho in Ho'. injection Ho' as <-. split; reflexivity.
    + unfold call_hook, plugin_attr, bind. rewrite Ho. cbn.
      do 3 (split; [reflexivity|]).
      intros p' o' Hp' Ho'. injection Hp' as <-. congruence.
  - unfold call_hook, plugin_attr, bind. cbn.
    do 3 (split; [reflexivity|]).
    intros p' o' Hp'. discriminate Hp'.
Qed.

(** [resetUI] in one step. *)
Lemma resetUI_run (w : World) :
  let u := ui (self w) in
  resetUI w
  = (Ret tt,
     mkWorld (with_ui (mkUi true true true true (widget_knitcontrol u) false
                            false (module_dropdown u)
                            (module_dropdown_currentText u) (filename_lineedit u)
                            (dimensions_label u) (notification_label u)
                            (statusBar u) (image_pattern_view u))
                      (self w))
             (heap w) (trace w) (running w)).
Proof.
  destruct w as [g h t rn]. destruct g. destruct ui0. reflexivity.
Qed.

(** X10.  After a start, [resetUI] gives back the menus, the loader and the
    options, but not the knit button: it stays disabled, and so does the
    cancel button.  The worker goes on. *)
Theorem resetUI_after_start (w : World) (p : PluginInfo) (o : PluginObject) :
  enabled_plugin (self w) = Some p -> plugin_object p = Some o ->
  let w1 := snd (start_knitting_process w) in
  fst (resetUI w1) = Ret tt /\
  enabled_flags (ui (self (snd (resetUI w1))))
  = [true; true; true; true; widget_knitcontrol (ui (self w)); false; false] /\
  running (snd (resetUI w1))
  = (running w ++ [mkGenericThread (knit o) ["parent_window"]])%list.
Proof.
  intros He Ho w1. subst w1.
  rewrite resetUI_run. cbn [fst snd self heap trace running ui with_ui enabled_flags
                            menuTools widget_imgload menuImage_Actions
                            widget_optionsdock widget_knitcontrol knit_button
                            cancel_button].
  split; [reflexivity|].
  destruct w as [g h t rn]. destruct g. destruct ui0.
  cbn [self enabled_plugin] in He. subst enabled_plugin0.
  unfold start_knitting_process, bind, modify_ui, modify, gets, plugin_attr.
  cbn [fst snd self heap trace running enabled_plugin with_ui ui
       with_menuTools with_widget_imgload with_menuImage_Actions
       with_widget_optionsdock with_knit_button with_cancel_button].
  rewrite Ho. split; reflexivity.
Qed.

(** ** Switching the plugin, continued *)

(** A call of a plugin method changes widgets and adds events, nothing
    else, whether it returns or raises. *)
Lemma call_hook_shape (p : option PluginInfo) (attr : string) (hn : HookName)
    (sel : PluginObject -> Hook) (g : GuiMain) (h : list PIL.Image)
    (t : list Event) (rn : list GenericThread) :
  exists r u t',
    call_hook p attr hn sel (mkWorld g h t rn)
    = (r, mkWorld (with_ui u g) h (t ++ t') rn).
Proof.
  destruct g.
  destruct p as [info|].
  - destruct (plugin_object info) as [o|] eqn:Ho.
    + rewrite (call_hook_run _ _ _ _ _ _ Ho). cbn.
      eexists _, _, _. reflexivity.
    + unfold call_hook, plugin_attr, bind. rewrite Ho. cbn.
      eexists _, ui0, []. rewrite app_nil_r. reflexivity.
  - unfold call_hook, plugin_attr, bind. cbn.
    eexists _, ui0, []. rewrite app_nil_r. reflexivity.
Qed.

Ltac simp_world :=
  cbn [fst snd self heap trace running enabled_plugin ui pm with_ui
       with_enabled_plugin pil_image module_dropdown_currentText].

Ltac run_set_enabled_plugin :=
  unfold set_enabled_plugin, call_hook, plugin_attr, logging, bind,
    try_except, gets, modify, run_hook, emit, ret, raise;
  simp_world.

(** X11.  [set_enabled_plugin] never raises, whatever the teardown and the
    setup do and whether or not the name is known: it returns what the
    plugin manager has under the name, and that is what is enabled
    afterwards ([None] for an unknown name).  The pattern, the images,
    the workers and the plugin manager are untouched. *)
Theorem set_enabled_plugin_never_raises (plugin_name : option string) (w : World) :
  let w' := snd (set_enabled_plugin plugin_name w) in
  fst (set_enabled_plugin plugin_name w) = Ret (enabled_plugin (self w')) /\
  (forall n, plugin_name = Some n -> n <> "" ->
             enabled_plugin (self w') = getPluginByName (pm (self w)) n) /\
  pm (self w') = pm (self w) /\ pil_image (self w') = pil_image (self w) /\
  heap w' = heap w /\ running w' = running w.
Proof.
  intros w'. subst w'.
  destruct w as [g h t rn].
  destruct g as [route enabled_plugin0 pil sn en al vp zl ui0 pm0 gt0].
  run_set_enabled_plugin.
  destruct enabled_plugin0 as [old|]; simp_world.
  1: destruct (plugin_object old) as [oo|]; simp_world.
  1: destruct (cleanup_ui oo ui0) as [[[]|e] u]; simp_world.
  all: destruct plugin_name as [n|]; simp_world.
  all: try (destruct (String.eqb_spec n "") as [En|En]; simp_world).
  all: match goal with
       | |- context [getPluginByName ?p ?x] =>
           destruct (getPluginByName p x) as [new|] eqn:Eg
       end; simp_world.
  all: try (destruct (plugin_object new) as [no|]; simp_world).
  all: try match goal with
           | |- context [setup_ui ?o ?u] =>
               destruct (setup_ui o u) as [[[]|e'] u']
           end; simp_world.
  all: split; [reflexivity|]; split;
    [intros n' Hn' Hne; try discriminate Hn'; injection Hn' as <-;
     try congruence|repeat split].
Qed.

(** X12.  A name the plugin manager does not know: the teardown of the plugin
    that was enabled runs all the same, and the widgets are as it left
    them; then nothing is enabled, the log says so and [None] is
    returned. *)
Theorem set_enabled_plugin_unknown_name (w : World) (n : string)
    (old : PluginInfo) (oo : PluginObject) :
  enabled_plugin (self w) = Some old -> plugin_object old = Some oo ->
  n <> "" -> getPluginByName (pm (self w)) n = None ->
  let w' := snd (set_enabled_plugin (Some n) w) in
  fst (set_enabled_plugin (Some n) w) = Ret None /\
  enabled_plugin (self w') = None /\
  ui (self w') = snd (cleanup_ui oo (ui (self w))) /\
  trace w' = (trace w ++ [Called (name old) H_cleanup_ui;
                          Log INFO "no plugin object loaded"])%list.
Proof.
  intros He Ho Hn Hg w'. subst w'.
  destruct w as [g h t rn].
  destruct g as [route enabled_plugin0 pil sn en al vp zl ui0 pm0 gt0].
  cbn [self enabled_plugin pm] in He, Hg. subst enabled_plugin0.
  apply String.eqb_neq in Hn.
  run_set_enabled_plugin. rewrite Ho. simp_world.
  destruct (cleanup_ui oo ui0) as [[[]|e] u]; simp_world;
    rewrite Hn; simp_world; rewrite Hg; simp_world;
    rewrite <- app_assoc; repeat split.
Qed.

(** X13.  The first selection, with no plugin enabled before: the setup of the
    plugin runs on the widgets, and the plugin is enabled and returned
    whether the setup returns or raises.  The log tells the two apart: a
    setup that raises is reported as "no plugin object loaded", one that
    returns with what [str] gives for the plugin and with the name. *)
Theorem set_enabled_plugin_first (w : World) (n : string) (new : PluginInfo)
    (no : PluginObject) :
  enabled_plugin (self w) = None -> n <> "" ->
  getPluginByName (pm (self w)) n = Some new -> plugin_object new = Some no ->
  let w' := snd (set_enabled_plugin (Some n) w) in
  fst (set_enabled_plugin (Some n) w) = Ret (Some new) /\
  enabled_plugin (self w') = Some new /\
  ui (self w') = snd (setup_ui no (ui (self w))) /\
  (forall e, fst (setup_ui no (ui (self w))) = Raise e ->
     trace w' = (trace w ++ [Called (name new) H_setup_ui;
                             Log INFO "no plugin object loaded"])%list) /\
  (fst (setup_ui no (ui (self w))) = Ret tt ->
     trace w' = (trace w ++ [Called (name new) H_setup_ui;
                             Log INFO ("Set enabled_plugin as "
                                       ++ object_str new
                                       ++ " - " ++ n)])%list).
Proof.
  intros He Hn Hg Ho w'. subst w'.
  destruct w as [g h t rn].
  destruct g as [route enabled_plugin0 pil sn en al vp zl ui0 pm0 gt0].
  cbn [self enabled_plugin pm ui] in *. subst enabled_plugin0.
  apply String.eqb_neq in Hn.
  run_set_enabled_plugin. rewrite Hn. simp_world. rewrite Hg. simp_world.
  rewrite Ho. simp_world.
  destruct (setup_ui no ui0) as [[[]|e'] u']; simp_world;
    rewrite <- ?app_assoc; cbn [app fst snd];
    (split; [reflexivity|]); (split; [reflexivity|]);
    (split; [reflexivity|]); split; intros; try discriminate; try reflexivity.
Qed.

(** X14.  Without a name, or with the empty name, the plugin is the one the
    module dropdown shows. *)
Theorem set_enabled_plugin_default_name (w : World) :
  enabled_plugin (self w) = None ->
  set_enabled_plugin None w = set_enabled_plugin (Some "") w /\
  (module_dropdown_currentText (ui (self w)) <> "" ->
   set_enabled_plugin None w
   = set_enabled_plugin (Some (module_dropdown_currentText (ui (self w)))) w).
Proof.
  intros He.
  destruct w as [g h t rn].
  destruct g as [route enabled_plugin0 pil sn en al vp zl ui0 pm0 gt0].
  cbn [self enabled_plugin ui] in *. subst enabled_plugin0.
  split; [reflexivity|].
  intros Hn. apply String.eqb_neq in Hn.
  run_set_enabled_plugin. rewrite Hn. reflexivity.
Qed.

(** ** Loading *)

(** [load_image_from_string] up to its last step, the notification of
    the plugin. *)
Lemma load_image_run (image_str : string) (im0 : PIL.Image) (w : World) :
  exists w3,
    load_image_from_string image_str (Ret im0) w
    = call_hook (enabled_plugin (self w)) "slotSetImageDimensions"
        (H_slotSetImageDimensions (PIL.width im0) (PIL.height im0))
        (fun o => slotSetImageDimensions o (PIL.width im0) (PIL.height im0)) w3 /\
    heap w3 = (heap w ++ [im0; PIL.convert PIL.RGBA im0])%list /\
    pil_image (self w3) = Some (S (length (heap w))) /\
    running w3 = running w /\
    enabled_plugin (self w3) = enabled_plugin (self w) /\
    statusBar (ui (self w3)) = image_str /\
    widget_optionsdock (ui (self w3)) = true /\
    menuImage_Actions (ui (self w3)) = true /\
    dimensions_label (ui (self w3))
    = str (PIL.width im0) ++ " - " ++ str (PIL.height im0) /\
    (exists img, pattern_pos (shown_scene w3) = Some img) /\
    exists t, trace w3 = (trace w ++ t)%list.
Proof.
  destruct w as [g h t rn].
  destruct g as [route ep pil sn en al vp zl ui0 pm0 gt0]. destruct ui0.
  assert (Hnew : nth_error ((h ++ [im0]) ++ [PIL.convert PIL.RGBA im0])
                           (length (h ++ [im0]))
                 = Some (PIL.convert PIL.RGBA im0))
    by apply nth_error_app_last.
  assert (Hsz : PIL.size (PIL.convert PIL.RGBA im0) = PIL.size im0)
    by apply convert_size.
  unfold load_image_from_string, refresh_scene, set_dimensions_on_gui,
    the_pil_image, modify_ui, modify, bind, lift, alloc, gets, deref, lookup.
  cbn [fst snd self heap trace running pil_image with_pil_image ui with_ui
       with_dimensions_label imageAlignment start_needle stop_needle
       var_progress zoomlevel].
  rewrite Hnew.
  cbn [fst snd self heap trace running pil_image with_pil_image ui with_ui
       with_dimensions_label imageAlignment start_needle stop_needle
       var_progress zoomlevel].
  rewrite !Hsz. unfold PIL.width, PIL.height.
  cases_of_alignment;
    cbn [fst snd self heap trace running pil_image with_pil_image ui with_ui
         with_dimensions_label imageAlignment start_needle stop_needle
         var_progress zoomlevel ret logging emit with_statusBar
         with_widget_optionsdock with_menuImage_Actions with_image_pattern_view
         enabled_plugin];
    rewrite ?Hnew;
    cbn [fst snd self heap trace running pil_image with_pil_image ui with_ui
         enabled_plugin];
    rewrite ?Hsz;
    eexists; (split; [reflexivity|]);
    cbn [self heap trace running ui pil_image enabled_plugin statusBar
         widget_optionsdock menuImage_Actions dimensions_label];
    rewrite <- ?app_assoc, ?length_app; cbn [app length];
    rewrite ?Nat.add_1_r;
    (repeat (split; [reflexivity|]));
    (split; [eexists; reflexivity|]);
    solve [exists []; symmetry; apply app_nil_r | eexists; reflexivity].
Qed.

Lemma convert_RGBA_mode (im : PIL.Image) :
  PIL.mode (PIL.convert PIL.RGBA im) = PIL.RGBA.
Proof.
  unfold PIL.convert, PIL.copy.
  destruct (PIL.mode im) eqn:E; cbn [PIL.mode]; auto.
Qed.

(** X15.  However the file was stored, the pattern after a load is a new image
    in mode ["RGBA"] of the size of the file, and the images that existed
    are untouched.  This holds before the plugin is notified, so also
    when there is no plugin or its slot raises. *)
Theorem load_image_from_string_pattern (image_str : string) (im0 : PIL.Image)
    (w : World) :
  let w' := snd (load_image_from_string image_str (Ret im0) w) in
  exists r pattern,
    pil_image (self w') = Some r /\ lookup w r = None /\
    lookup w' r = Some pattern /\
    PIL.mode pattern = PIL.RGBA /\ PIL.size pattern = PIL.size im0 /\
    (forall r0 x, lookup w r0 = Some x -> lookup w' r0 = Some x) /\
    running w' = running w.
Proof.
  intros w'. subst w'.
  destruct (load_image_run image_str im0 w)
    as (w3 & -> & Hh & Hp & Hr & _).
  pose proof (call_hook_keeps_pattern (enabled_plugin (self w))
                "slotSetImageDimensions"
                (H_slotSetImageDimensions (PIL.width im0) (PIL.height im0))
                (fun o => slotSetImageDimensions o (PIL.width im0)
                                                 (PIL.height im0)) w3)
    as (Kp & Kh & _).
  exists (S (length (heap w))), (PIL.convert PIL.RGBA im0).
  unfold lookup. rewrite Kp, Kh, Hh.
  split; [exact Hp|].
  split; [apply nth_error_None; lia|].
  split.
  { change (heap w ++ [im0; PIL.convert PIL.RGBA im0])%list
      with (heap w ++ [im0] ++ [PIL.convert PIL.RGBA im0])%list.
    rewrite app_assoc.
    replace (S (length (heap w))) with (length (heap w ++ [im0]))
      by (rewrite length_app; cbn; lia).
    apply nth_error_app_last. }
  split; [apply convert_RGBA_mode|].
  split; [apply convert_size|].
  split.
  { intros r0 x H. rewrite nth_error_app1; [exact H|].
    apply nth_error_Some. congruence. }
  destruct (enabled_plugin (self w)) as [p|].
  - destruct (plugin_object p) as [o|] eqn:Ho.
    + rewrite (call_hook_run _ _ _ _ _ _ Ho). exact Hr.
    + unfold call_hook, plugin_attr, bind. rewrite Ho. exact Hr.
  - exact Hr.
Qed.

(** X16.  With a plugin that has its object, the last step of a load tells the
    plugin the size of the pattern, and the outcome of the load is the
    outcome of that slot.  The slot finds the window with the path in the
    status bar, the size in the dimensions label, the pattern drawn and
    the options and the image menu enabled. *)
Theorem load_image_from_string_notifies (image_str : string)
    (im0 : PIL.Image) (w : World) (p : PluginInfo) (o : PluginObject) :
  enabled_plugin (self w) = Some p -> plugin_object p = Some o ->
  let w' := snd (load_image_from_string image_str (Ret im0) w) in
  let slot := slotSetImageDimensions o (PIL.width im0) (PIL.height im0) in
  exists u t,
    fst (load_image_from_string image_str (Ret im0) w) = fst (slot u) /\
    ui (self w') = snd (slot u) /\
    trace w' = (trace w ++ t ++
                [Called (name p) (H_slotSetImageDimensions (PIL.width im0)
                                                           (PIL.height im0))])%list /\
    statusBar u = image_str /\
    dimensions_label u = str (PIL.width im0) ++ " - " ++ str (PIL.height im0) /\
    widget_optionsdock u = true /\ menuImage_Actions u = true.
Proof.
  intros He Ho w' slot. subst w' slot.
  destruct (load_image_run image_str im0 w)
    as (w3 & -> & _ & _ & _ & _ & Hs & Ho3 & Hm & Hd & _ & t & Ht).
  rewrite He, (call_hook_run _ _ _ _ _ _ Ho). cbn [fst snd self ui with_ui trace].
  exists (ui (self w3)), t.
  split; [reflexivity|]. split; [destruct (self w3); reflexivity|].
  split; [rewrite Ht, app_assoc; reflexivity|].
  repeat split; assumption.
Qed.

(** X17.  Without a plugin a load raises an [AttributeError] at its very end:
    by then the pattern is stored and drawn, the path is in the status
    bar and the options and the image menu are enabled. *)
Theorem load_image_from_string_without_plugin (image_str : string)
    (im0 : PIL.Image) (w : World) :
  enabled_plugin (self w) = None ->
  let w' := snd (load_image_from_string image_str (Ret im0) w) in
  fst (load_image_from_string image_str (Ret im0) w)
  = Raise (NoneType_has_no "plugin_object") /\
  pil_image (self w') = Some (S (length (heap w))) /\
  (exists pos, pattern_pos (shown_scene w') = Some pos) /\
  statusBar (ui (self w')) = image_str /\
  widget_optionsdock (ui (self w')) = true /\
  menuImage_Actions (ui (self w')) = true.
Proof.
  intros He w'. subst w'.
  destruct (load_image_run image_str im0 w)
    as (w3 & -> & _ & Hp & _ & _ & Hs & Ho3 & Hm & _ & Hpos & _).
  rewrite He. unfold call_hook, plugin_attr, bind. cbn [fst snd raise].
  repeat split; assumption.
Qed.

(** ** Choosing a file *)

(** X18.  [file_select_dialog]: a cancelled dialog changes nothing.  A chosen
    path is written to the file name field and to [image_file_route]
    before the file is opened: when [Image.open] raises, the exception
    leaves the method and the path stays, while the pattern, the images
    and the scene are those of before. *)
Theorem file_select_dialog_cases (home : string)
    (getOpenFileName : string -> string) (open : string -> Res PIL.Image)
    (w : World) :
  let dir := if String.eqb (filename_lineedit (ui (self w))) ""
             then home else "" in
  let route := getOpenFileName dir in
  let result := file_select_dialog home getOpenFileName open w in
  (route = "" -> result = (Ret tt, w)) /\
  (route <> "" ->
   forall e, open route = Raise e ->
     fst result = Raise e /\
     filename_lineedit (ui (self (snd result))) = route /\
     image_file_route (self (snd result)) = Some route /\
     pil_image (self (snd result)) = pil_image (self w) /\
     heap (snd result) = heap w /\
     shown_scene (snd result) = shown_scene w).
Proof.
  intros dir route result.
  assert (E : result
              = (if String.eqb route ""
                 then ret tt
                 else bind (update_file_selected_text_field route) (fun _ =>
                        load_image_from_string route (open route))) w)
    by reflexivity.
  rewrite E. clear E result.
  split.
  - intros ->. reflexivity.
  - intros Hr e He. apply String.eqb_neq in Hr. rewrite Hr.
    unfold update_file_selected_text_field, load_image_from_string, bind,
      modify_ui, modify, lift. rewrite He.
    destruct w as [g h t rn]. destruct g. destruct ui0.
    cbn. repeat split.
Qed.

(** ** Pop-ups *)

(** X19.  [display_blocking_pop_up] logs the message first.  For one of the
    four message types it shows the box and returns [True] when Ok came
    back and [None] otherwise, never [False]; for any other type it
    raises a [TypeError] and shows nothing. *)
Theorem display_blocking_pop_up_types
    (exec : MessageBox -> string -> string -> bool)
    (message message_type : string) (w : World) :
  let result := display_blocking_pop_up exec message message_type w in
  snd result
  = mkWorld (self w) (heap w)
            (trace w ++ [Log DEBUG ("MessageBox " ++ message_type ++ ": '"
                                    ++ message ++ "'")])
            (running w) /\
  (In message_type message_types ->
   exists box,
     box_function message_type = Some box /\
     fst result = Ret (if exec box "AYAB" message then Some true else None)) /\
  (~ In message_type message_types ->
   fst result = Raise (mkExn TypeError "'NoneType' object is not callable")).
Proof.
  intros result. subst result.
  unfold display_blocking_pop_up, bind, logging, emit, box_function,
    message_types.
  cbn [fst snd].
  destruct (String.eqb_spec message_type "error") as [E1|E1];
    [|destruct (String.eqb_spec message_type "info") as [E2|E2];
      [|destruct (String.eqb_spec message_type "question") as [E3|E3];
        [|destruct (String.eqb_spec message_type "warning") as [E4|E4]]]].
  1-4: match goal with
       | |- context [if ?c then ret (Some true) else ret None] =>
           destruct c eqn:Ex
       end;
    (split; [reflexivity|]);
    (split; [intros _; eexists; split; [reflexivity|]; rewrite Ex; reflexivity|]);
    intros H; exfalso; apply H; cbn; auto.
  split; [reflexivity|]. split; [|reflexivity].
  intros [H|[H|[H|[H|[]]]]]; congruence.
Qed.

(** ** Needles *)

(** X20.  [slotUpdateNeedles] takes any two integers its signal can carry,
    those of 32 bits, in any order and also outside the machine: with a
    pattern loaded that has pixels it returns, stores them and redraws
    with the limit lines at [start - 101] and [stop - 100]. *)
Theorem slotUpdateNeedles_redraws (a b : Z) (w : World) (r : ref)
    (im : PIL.Image) :
  -2147483648 <= a <= 2147483647 -> -2147483648 <= b <= 2147483647 ->
  pil_image (self w) = Some r -> lookup w r = Some im ->
  0 < PIL.width im -> 0 < PIL.height im ->
  let w' := snd (slotUpdateNeedles a b w) in
  fst (slotUpdateNeedles a b w) = Ret tt /\
  start_needle (self w') = a /\ stop_needle (self w') = b /\
  limit_lines_at w' (inject_Z a - 101) (inject_Z b - 100) (PIL.height im).
Proof.
  intros _ _ Hp Hl _ _ w'. subst w'.
  set (w1 := mkWorld (with_needles a b (self w)) (heap w) (trace w) (running w)).
  assert (Hp1 : pil_image (self w1) = Some r) by exact Hp.
  assert (Hl1 : lookup w1 r = Some im) by exact Hl.
  change (slotUpdateNeedles a b w) with (refresh_scene w1).
  split; [apply (refresh_scene_returns w1 r im Hp1 Hl1)|].
  pose proof (refresh_scene_self w1) as Hself.
  split.
  { change (start_needle (self (snd (refresh_scene w1))))
      with (start_needle (with_ui (ui (self w1)) (self (snd (refresh_scene w1))))).
    rewrite Hself. reflexivity. }
  split.
  { change (stop_needle (self (snd (refresh_scene w1))))
      with (stop_needle (with_ui (ui (self w1)) (self (snd (refresh_scene w1))))).
    rewrite Hself. reflexivity. }
  clear Hself.
  limit_lines Hp1 Hl1.
Qed.

(** ** Mirror and flip *)

Lemma getpixel_remap (im : PIL.Image) (w h : Z) (src : Z -> Z -> Z * Z)
    (x y : Z) :
  0 <= x < w -> 0 <= y < h ->
  PIL.getpixel (PIL.remap im w h src) x y
  = PIL.getpixel im (fst (src x y)) (snd (src x y)).
Proof.
  intros Hx Hy. unfold PIL.getpixel, PIL.remap, PIL.width.
  cbn [PIL.bands PIL.size fst]. rewrite map_map.
  apply map_ext. intros pl.
  exact (plane_get_plane_of w h
           (fun x y => PIL.plane_get (fst (PIL.size im)) pl
                                     (fst (src x y)) (snd (src x y)))
           x y Hx Hy).
Qed.

Lemma transpose_size (t : PIL.Transpose) (im : PIL.Image) :
  PIL.size (PIL.transpose t im) = PIL.size im.
Proof. destruct im as [m [a b] bs]. destruct t; reflexivity. Qed.

Lemma mirror_image_run (image : ref) (args : list PyVal) (w : World)
    (im : PIL.Image) :
  lookup w image = Some im ->
  __mirror_image image args w
  = (Ret (length (heap w)),
     mkWorld (self w) (heap w ++ [PIL.ImageOps_mirror im]) (trace w) (running w)).
Proof.
  intros Hl. unfold __mirror_image, bind, deref. rewrite Hl. reflexivity.
Qed.

Lemma flip_image_run (image : ref) (args : list PyVal) (w : World)
    (im : PIL.Image) :
  lookup w image = Some im ->
  __flip_image image args w
  = (Ret (length (heap w)),
     mkWorld (self w) (heap w ++ [PIL.ImageOps_flip im]) (trace w) (running w)).
Proof.
  intros Hl. unfold __flip_image, bind, deref. rewrite Hl. reflexivity.
Qed.

(** X22.  [__mirror_image] returns a new image of the mode and size of the
    pattern whose pixel [(x, y)] is the pixel [(width - 1 - x, y)] of the
    pattern, and leaves the pattern alone.  Mirroring the result again
    gives the pixels of the pattern back. *)
Theorem mirror_image_mirrors (image : ref) (args args' : list PyVal)
    (w : World) (im : PIL.Image) :
  lookup w image = Some im ->
  let once := __mirror_image image args w in
  let twice := __mirror_image (length (heap w)) args' (snd once) in
  exists out out',
    fst once = Ret (length (heap w)) /\
    lookup w (length (heap w)) = None /\
    lookup (snd once) (length (heap w)) = Some out /\
    lookup (snd once) image = Some im /\
    PIL.mode out = PIL.mode im /\ PIL.size out = PIL.size im /\
    (forall x y, 0 <= x < PIL.width im -> 0 <= y < PIL.height im ->
       PIL.getpixel out x y = PIL.getpixel im (PIL.width im - 1 - x) y) /\
    fst twice = Ret (S (length (heap w))) /\
    lookup (snd twice) (S (length (heap w))) = Some out' /\
    PIL.size out' = PIL.size im /\
    (forall x y, 0 <= x < PIL.width im -> 0 <= y < PIL.height im ->
       PIL.getpixel out' x y = PIL.getpixel im x y).
Proof.
  intros Hl once twice. subst twice once.
  rewrite (mirror_image_run image args w im Hl). cbn [fst snd].
  set (out := PIL.ImageOps_mirror im).
  set (w1 := mkWorld (self w) (heap w ++ [out]) (trace w) (running w)).
  assert (Hl1 : lookup w1 (length (heap w)) = Some out)
    by (apply nth_error_app_last).
  rewrite (mirror_image_run _ args' w1 out Hl1). cbn [fst snd].
  exists out, (PIL.ImageOps_mirror out).
  assert (Hpx : forall x y, 0 <= x < PIL.width im -> 0 <= y < PIL.height im ->
            PIL.getpixel out x y = PIL.getpixel im (PIL.width im - 1 - x) y).
  { intros x y Hx Hy. unfold out, PIL.ImageOps_mirror, PIL.transpose.
    rewrite getpixel_remap by assumption. reflexivity. }
  unfold lookup in *. cbn [heap w1].
  split; [reflexivity|].
  split; [apply nth_error_None; lia|].
  split; [exact Hl1|].
  split; [apply nth_error_app_old; exact Hl|].
  split; [reflexivity|]. split; [apply transpose_size|]. split; [exact Hpx|].
  split; [rewrite length_app, Nat.add_1_r; reflexivity|].
  split.
  { replace (S (length (heap w))) with (length (heap w ++ [out]))
      by (rewrite length_app, Nat.add_1_r; reflexivity).
    apply nth_error_app_last. }
  split; [unfold out, PIL.ImageOps_mirror; rewrite !transpose_size; reflexivity|].
  intros x y Hx Hy. unfold PIL.ImageOps_mirror at 1, PIL.transpose.
  assert (Hw : PIL.width out = PIL.width im) by reflexivity.
  assert (Hh : PIL.height out = PIL.height im) by reflexivity.
  rewrite getpixel_remap by (rewrite ?Hw, ?Hh; assumption).
  cbn [fst snd]. rewrite Hw, Hpx by lia.
  f_equal. lia.
Qed.

(** X23.  [__flip_image] returns a new image of the mode and size of the
    pattern whose pixel [(x, y)] is the pixel [(x, height - 1 - y)] of the
    pattern, and leaves the pattern alone.  Flipping the result again
    gives the pixels of the pattern back. *)
Theorem flip_image_flips (image : ref) (args args' : list PyVal)
    (w : World) (im : PIL.Image) :
  lookup w image = Some im ->
  let once := __flip_image image args w in
  let twice := __flip_image (length (heap w)) args' (snd once) in
  exists out out',
    fst once = Ret (length (heap w)) /\
    lookup w (length (heap w)) = None /\
    lookup (snd once) (length (heap w)) = Some out /\
    lookup (snd once) image = Some im /\
    PIL.mode out = PIL.mode im /\ PIL.size out = PIL.size im /\
    (forall x y, 0 <= x < PIL.width im -> 0 <= y < PIL.height im ->
       PIL.getpixel out x y = PIL.getpixel im x (PIL.height im - 1 - y)) /\
    fst twice = Ret (S (length (heap w))) /\
    lookup (snd twice) (S (length (heap w))) = Some out' /\
    PIL.size out' = PIL.size im /\
    (forall x y, 0 <= x < PIL.width im -> 0 <= y < PIL.height im ->
       PIL.getpixel out' x y = PIL.getpixel im x y).
Proof.
  intros Hl once twice. subst twice once.
  rewrite (flip_image_run image args w im Hl). cbn [fst snd].
  set (out := PIL.ImageOps_flip im).
  set (w1 := mkWorld (self w) (heap w ++ [out]) (trace w) (running w)).
  assert (Hl1 : lookup w1 (length (heap w)) = Some out)
    by (apply nth_error_app_last).
  rewrite (flip_image_run _ args' w1 out Hl1). cbn [fst snd].
  exists out, (PIL.ImageOps_flip out).
  assert (Hpx : forall x y, 0 <= x < PIL.width im -> 0 <= y < PIL.height im ->
            PIL.getpixel out x y = PIL.getpixel im x (PIL.height im - 1 - y)).
  { intros x y Hx Hy. unfold out, PIL.ImageOps_flip, PIL.transpose.
    rewrite getpixel_remap by assumption. reflexivity. }
  unfold lookup in *. cbn [heap w1].
  split; [reflexivity|].
  split; [apply nth_error_None; lia|].
  split; [exact Hl1|].
  split; [apply nth_error_app_old; exact Hl|].
  split; [reflexivity|]. split; [apply transpose_size|]. split; [exact Hpx|].
  split; [rewrite length_app, Nat.add_1_r; reflexivity|].
  split.
  { replace (S (length (heap w))) with (length (heap w ++ [out]))
      by (rewrite length_app, Nat.add_1_r; reflexivity).
    apply nth_error_app_last. }
  split; [unfold out, PIL.ImageOps_flip; rewrite !transpose_size; reflexivity|].
  intros x y Hx Hy. unfold PIL.ImageOps_flip at 1, PIL.transpose.
  assert (Hw : PIL.width out = PIL.width im) by reflexivity.
  assert (Hh : PIL.height out = PIL.height im) by reflexivity.
  rewrite getpixel_remap by (rewrite ?Hw, ?Hh; assumption).
  cbn [fst snd]. rewrite Hh, Hpx by lia.
  f_equal. lia.
Qed.

(** ** Invert, twice *)

Lemma invert_image_run (image : ref) (args : list PyVal) (w : World)
    (im : PIL.Image) :
  lookup w image = Some im ->
  length (PIL.bands im) = PIL.getbands (PIL.mode im) ->
  exists ext,
    __invert_image image args w
    = (Ret (length (heap w ++ ext)),
       mkWorld (self w)
               ((heap w ++ ext)
                ++ [PIL.mkImage PIL.RGB (PIL.size im)
                      (map (map (fun v => 255 - v)) (firstn 3 (PIL.bands im)))])
               (trace w) (running w)).
Proof.
  intros Hl Hb. unfold __invert_image.
  erewrite bind_Ret by (unfold deref; rewrite Hl; reflexivity).
  destruct im as [m sz bs]. cbn [PIL.mode PIL.bands PIL.size] in *.
  destruct m; cbn [PIL.getbands] in Hb.
  - exists []. rewrite app_nil_r, firstn_all2 by lia. reflexivity.
  - destruct bs as [|r [|g [|b [|a [|]]]]]; try discriminate Hb.
    exists [PIL.mkImage PIL.RGB sz [r; g; b]].
    unfold bind, lift, alloc, PIL.ImageOps_invert, PIL.merge, PIL.split,
      PIL.sizes_agree.
    cbn [map length PIL.getbands Nat.eqb negb forallb PIL.band_size
         PIL.band_data PIL.size PIL.bands PIL.mode fst snd].
    rewrite !Z.eqb_refl. reflexivity.
Qed.

Lemma invert_invert (bs : list (list Z)) :
  map (map (fun v => 255 - v)) (map (map (fun v => 255 - v)) bs) = bs.
Proof.
  rewrite map_map. rewrite <- (map_id bs) at 2. apply map_ext. intros pl.
  rewrite map_map. rewrite <- (map_id pl) at 2. apply map_ext. intros v. lia.
Qed.

(** X24.  Inverting twice gives an ["RGB"] image with the red, green and blue
    bands of the pattern: an ["RGB"] pattern comes back as it was, an
    ["RGBA"] pattern without its transparency.  The pattern itself is
    not changed. *)
Theorem invert_image_twice (image : ref) (args args' : list PyVal) (w : World)
    (im : PIL.Image) :
  lookup w image = Some im ->
  length (PIL.bands im) = PIL.getbands (PIL.mode im) ->
  exists r1 r2 out,
    fst (__invert_image image args w) = Ret r1 /\
    let w1 := snd (__invert_image image args w) in
    fst (__invert_image r1 args' w1) = Ret r2 /\
    let w2 := snd (__invert_image r1 args' w1) in
    lookup w2 r2 = Some out /\ lookup w2 image = Some im /\
    PIL.mode out = PIL.RGB /\ PIL.size out = PIL.size im /\
    PIL.bands out = firstn 3 (PIL.bands im) /\
    (PIL.mode im = PIL.RGB -> out = im).
Proof.
  intros Hl Hb.
  destruct (invert_image_run image args w im Hl Hb) as (ext & E1).
  set (inv1 := PIL.mkImage PIL.RGB (PIL.size im)
                 (map (map (fun v => 255 - v)) (firstn 3 (PIL.bands im)))) in *.
  set (w1 := mkWorld (self w) ((heap w ++ ext) ++ [inv1]) (trace w) (running w))
    in *.
  assert (Hl1 : lookup w1 (length (heap w ++ ext)) = Some inv1)
    by apply nth_error_app_last.
  assert (Hb3 : length (firstn 3 (PIL.bands im)) = 3%nat).
  { rewrite length_firstn, Hb. destruct (PIL.mode im); reflexivity. }
  assert (Hb1 : length (PIL.bands inv1) = PIL.getbands (PIL.mode inv1)).
  { cbn. rewrite length_map. exact Hb3. }
  destruct (invert_image_run _ args' w1 inv1 Hl1 Hb1) as (ext' & E2).
  eexists _, _, _. rewrite E1. cbn [fst snd]. split; [reflexivity|].
  fold w1. rewrite E2. cbn [fst snd]. split; [reflexivity|].
  unfold lookup. cbn [heap].
  split; [apply nth_error_app_last|].
  split.
  { apply nth_error_app_old. rewrite nth_error_app1.
    - cbn [heap w1]. apply nth_error_app_old. rewrite nth_error_app1; [exact Hl|].
      apply nth_error_Some. unfold lookup in Hl. congruence.
    - cbn [heap w1]. rewrite !length_app.
      assert (image < length (heap w))%nat
        by (apply nth_error_Some; unfold lookup in Hl; congruence).
      lia. }
  split; [reflexivity|]. split; [reflexivity|].
  assert (Hbands : map (map (fun v => 255 - v)) (firstn 3 (PIL.bands inv1))
                   = firstn 3 (PIL.bands im)).
  { cbn [PIL.bands inv1]. rewrite firstn_all2 by (rewrite length_map; lia).
    apply invert_invert. }
  split; [exact Hbands|].
  intros Hm. rewrite Hbands. cbn [PIL.size inv1].
  destruct im as [m sz bs]. cbn [PIL.mode PIL.bands PIL.size] in *. subst m.
  rewrite firstn_all2 by (cbn in Hb; lia). reflexivity.
Qed.

(** ** Repeat, at the edges *)

Lemma negative_mul (n : Z) (v : PyVal) :
  0 < n -> negative (mul n v) = negative v.
Proof.
  intros Hn. destruct v as [z|q]; cbn [mul negative].
  - destruct (Z.ltb_spec (n * z) 0), (Z.ltb_spec z 0); try reflexivity; nia.
  - f_equal. apply Bool.eq_iff_eq_true. rewrite !Qle_bool_iff.
    unfold Qle. cbn. split; nia.
Qed.

(** X25.  [__repeat_image] with arguments it cannot use raises and leaves the
    world as it is: an [IndexError] for fewer than two counts, a
    [ValueError] when one of the two counts is negative, integer or
    float, and otherwise a [TypeError] when one of them is a float. *)
Theorem repeat_image_bad_arguments (image : ref) (w : World) (im : PIL.Image) :
  lookup w image = Some im -> 0 < PIL.width im -> 0 < PIL.height im ->
  __repeat_image image [] w
  = (Raise (mkExn IndexError "tuple index out of range"), w) /\
  (forall a, __repeat_image image [a] w
             = (Raise (mkExn IndexError "tuple index out of range"), w)) /\
  (forall a b rest, negative a = true \/ negative b = true ->
     __repeat_image image (a :: b :: rest) w
     = (Raise (mkExn ValueError "Width and height must be >= 0"), w)) /\
  (forall a b rest, negative a = false -> negative b = false ->
     is_float a = true \/ is_float b = true ->
     exists e,
       __repeat_image image (a :: b :: rest) w = (Raise e, w) /\
       exn_class e = TypeError).
Proof.
  intros Hl Hw Hh.
  assert (Hd : deref image w = (Ret im, w))
    by (unfold deref; rewrite Hl; reflexivity).
  unfold __repeat_image, bind. rewrite Hd.
  split; [reflexivity|]. split; [reflexivity|].
  assert (Hneg : forall a b,
            negative (mul (fst (PIL.size im)) b)
            || negative (mul (snd (PIL.size im)) a)
            = negative b || negative a).
  { intros a b. rewrite !negative_mul by assumption. reflexivity. }
  split.
  - intros a b rest Hab.
    unfold lift, Image_new. cbn [item nth_error fst snd].
    rewrite Hneg.
    replace (negative b || negative a) with true
      by (symmetry; apply orb_true_iff; tauto).
    reflexivity.
  - intros a b rest Ha Hb Hf.
    unfold lift, Image_new. cbn [item nth_error fst snd].
    rewrite Hneg, Ha, Hb. cbn [orb].
    destruct a, b; cbn [is_float] in Hf;
      try (destruct Hf; discriminate);
      cbn [mul]; eexists; (split; [reflexivity|reflexivity]).
Qed.

Lemma paste_rows_nil (im : PIL.Image) (hs : list Z) (cur : PIL.Image) :
  paste_rows im [] hs cur = cur.
Proof. induction hs as [|y hs IH]; cbn; auto. Qed.

(** X26.  A count of zero is accepted: [__repeat_image] then returns a new
    image without pixels, every band of it empty, of width
    [width * h] and height [height * v], one of which is 0. *)
Theorem repeat_image_zero_count (image : ref) (v h : Z) (w : World)
    (im : PIL.Image) :
  lookup w image = Some im -> 0 < PIL.width im -> 0 < PIL.height im ->
  0 <= v -> 0 <= h -> v = 0 \/ h = 0 ->
  __repeat_image image [PyInt v; PyInt h] w
  = (Ret (length (heap w)),
     mkWorld (self w)
             (heap w ++ [PIL.mkImage PIL.RGB
                           (PIL.width im * h, PIL.height im * v) [[]; []; []]])
             (trace w) (running w)).
Proof.
  intros Hl Hw Hh Hv Hhh Hz.
  destruct w as [g h0 t rn]. unfold lookup in Hl. cbn [heap self trace running] in *.
  set (ow := PIL.width im) in *. set (oh := PIL.height im) in *.
  assert (Harea : Z.to_nat (ow * h * (oh * v)) = 0%nat) by (destruct Hz; subst; lia).
  unfold __repeat_image.
  erewrite bind_Ret by (unfold deref, lookup; cbn [heap]; rewrite Hl; reflexivity).
  cbn [item nth_error lift mul].
  erewrite bind_Ret by reflexivity.
  erewrite bind_Ret by reflexivity.
  change (fst (PIL.size im)) with ow. change (snd (PIL.size im)) with oh.
  erewrite bind_Ret.
  2:{ unfold Image_new, PIL.new. cbn [mul negative].
      destruct (Z.ltb_spec (ow * h) 0); [nia|].
      destruct (Z.ltb_spec (oh * v) 0); [nia|].
      cbn [orb]. unfold bind, lift, alloc, ret.
      cbn [fst snd heap self trace running]. reflexivity. }
  cbn [fst snd PIL.getbands]. rewrite Harea. cbn [repeat].
  erewrite bind_Ret
    by (unfold lift; rewrite (range_multiples oh v) by lia; reflexivity).
  destruct Hz as [-> | ->].
  - cbn [Z.to_nat seq map for_each]. reflexivity.
  - erewrite bind_Ret.
    2:{ apply (paste_rows_run g h0 t rn image im Hl (ow * 0) ow []).
        rewrite (range_multiples ow 0) by lia. reflexivity. }
    rewrite paste_rows_nil. reflexivity.
Qed.

(** ** Transforms, in general *)

Ltac framed_new :=
  first
    [ eapply framed_weaken; [apply framed_alloc|intros; right; assumption]
    | apply framed_raise
    | apply framed_ret; left; reflexivity ].

(** What a transform returns is the image it was given or an image that
    did not exist. *)
Lemma call_transform_new (Image_rotate : PyVal -> PIL.Image -> Res PIL.Image)
    (n : nat) (transform_type : string) (image : ref) (args : list PyVal) :
  framed n (call (transform_dict Image_rotate transform_type) image args)
         (fun r => r = image \/ (n <= r)%nat).
Proof.
  unfold transform_dict, call.
  repeat match goal with
         | |- context [if ?b then _ else _] => destruct b
         end.
  - unfold __invert_image. framed_step.
    destruct (PIL.mode _).
    + repeat framed_step; framed_new.
    + destruct (PIL.split _) as [|? [|? [|? [|? [|]]]]];
        repeat framed_step; framed_new.
  - unfold __repeat_image. do 3 framed_step.
    eapply framed_bind; [apply Image_new_framed|intros new Hnew].
    framed_step.
    eapply framed_bind; [|intros; apply framed_ret; right; exact Hnew].
    apply framed_for_each. intros h.
    framed_step. apply framed_for_each. intros x.
    apply framed_paste. exact Hnew.
  - unfold __mirror_image. framed_step. framed_new.
  - unfold __flip_image. framed_step. framed_new.
  - unfold __rotate_image. destruct args; repeat framed_step; framed_new.
  - apply framed_raise.
Qed.

(** X27.  Whatever its key and arguments, and whether it returns or raises, the
    transform that [apply_image_transform] calls changes neither the
    window nor the workers nor any image that exists; the image it
    returns is the one it was given or a new one. *)
Theorem transforms_leave_images
    (Image_rotate : PyVal -> PIL.Image -> Res PIL.Image)
    (transform_type : string) (image : ref) (args : list PyVal) (w : World) :
  let w' := snd (call (transform_dict Image_rotate transform_type) image args w) in
  self w' = self w /\ running w' = running w /\
  (forall r x, lookup w r = Some x -> lookup w' r = Some x) /\
  (forall r, fst (call (transform_dict Image_rotate transform_type) image args w)
             = Ret r ->
             r = image \/ lookup w r = None).
Proof.
  intros w'. subst w'.
  destruct (call_transform_new Image_rotate (length (heap w)) transform_type
              image args w (le_n _)) as [(Hs & Hr & Hlen & Hlk) Hnew].
  split; [exact Hs|]. split; [exact Hr|]. split.
  - intros r x H. rewrite Hlk; [exact H|].
    apply nth_error_Some. unfold lookup in H. congruence.
  - intros r H. destruct (Hnew r H) as [E|E]; [left; exact E|right].
    apply nth_error_None. exact E.
Qed.

(** ** A transform that succeeds *)

Lemma refresh_scene_label (w : World) (r : ref) (im : PIL.Image) :
  pil_image (self w) = Some r -> lookup w r = Some im ->
  dimensions_label (ui (self (snd (refresh_scene w))))
  = str (PIL.width im) ++ " - " ++ str (PIL.height im) /\
  exists pos, pattern_pos (shown_scene (snd (refresh_scene w))) = Some pos.
Proof.
  intros Hp Hl. run_refresh_scene Hp Hl.
  cases_of_alignment; cbn; (split; [reflexivity|eexists; reflexivity]).
Qed.

(** When the transform returns, [apply_image_transform] goes on from a
    world [w3] that has the new pattern and the knit controls disabled. *)
Lemma apply_image_transform_success_run
    (Image_rotate : PyVal -> PIL.Image -> Res PIL.Image)
    (transform_type : string) (args : list PyVal) (w w1 : World) (r r' : ref)
    (im' : PIL.Image) :
  pil_image (self w) = Some r ->
  call (transform_dict Image_rotate transform_type) r args w = (Ret r', w1) ->
  lookup w1 r' = Some im' ->
  exists w3,
    apply_image_transform Image_rotate transform_type args w
    = notify_and_render im' w3 /\
    pil_image (self w3) = Some r' /\ lookup w3 r' = Some im' /\
    enabled_plugin (self w3) = enabled_plugin (self w) /\
    widget_knitcontrol (ui (self w3)) = false /\
    trace w3 = trace w1.
Proof.
  intros Hp Ec Hl1.
  destruct (call_transform_framed Image_rotate (length (heap w)) transform_type
              r args w (le_n _)) as [(Hs & _) _].
  rewrite Ec in Hs. cbn [snd] in Hs.
  eexists. split.
  - unfold apply_image_transform, bind, gets, try_except.
    rewrite Hp, Ec.
    cbn [logging emit ret modify modify_ui fst snd self heap trace running].
    unfold the_pil_image, bind, gets, deref.
    cbn [self pil_image with_ui with_pil_image].
    unfold lookup in *. cbn [heap]. rewrite Hl1.
    reflexivity.
  - cbn. rewrite Hs. destruct (self w). destruct ui0. cbn. repeat split; auto.
Qed.

(** X28.  With a pattern loaded, when the transform returns an image, that
    image is the pattern afterwards, and the next thing the window does
    is to tell the plugin its size.  If the slot of the plugin returns,
    so does [apply_image_transform], and when the new image has pixels,
    width and height positive, its size is in the dimensions label of the
    redrawn window; if moreover the slot leaves the knit controls alone,
    they are disabled. *)
Theorem apply_image_transform_success
    (Image_rotate : PyVal -> PIL.Image -> Res PIL.Image)
    (transform_type : string) (args : list PyVal) (w w1 : World) (r r' : ref)
    (im' : PIL.Image) (p : PluginInfo) (o : PluginObject) :
  pil_image (self w) = Some r ->
  call (transform_dict Image_rotate transform_type) r args w = (Ret r', w1) ->
  lookup w1 r' = Some im' ->
  enabled_plugin (self w) = Some p -> plugin_object p = Some o ->
  let result := apply_image_transform Image_rotate transform_type args w in
  let slot := slotSetImageDimensions o (PIL.width im') (PIL.height im') in
  pil_image (self (snd result)) = Some r' /\
  lookup (snd result) r' = Some im' /\
  (exists t,
     trace (snd result)
     = (trace w1 ++ Called (name p)
                      (H_slotSetImageDimensions (PIL.width im') (PIL.height im'))
                 :: t)%list) /\
  ((forall u, fst (slot u) = Ret tt) ->
   fst result = Ret tt /\
   (0 < PIL.width im' -> 0 < PIL.height im' ->
    dimensions_label (ui (self (snd result)))
    = str (PIL.width im') ++ " - " ++ str (PIL.height im')) /\
   ((forall u, widget_knitcontrol (snd (slot u)) = widget_knitcontrol u) ->
    widget_knitcontrol (ui (self (snd result))) = false)).
Proof.
  intros Hp Ec Hl1 He Ho result slot. subst result slot.
  destruct (apply_image_transform_success_run Image_rotate transform_type args
              w w1 r r' im' Hp Ec Hl1) as (w3 & -> & Hp3 & Hl3 & He3 & Hk3 & Ht3).
  unfold notify_and_render, bind, gets. cbn [fst snd]. rewrite He3, He.
  change (fst (PIL.size im')) with (PIL.width im').
  change (snd (PIL.size im')) with (PIL.height im').
  rewrite (call_hook_run _ _ _ _ _ _ Ho). cbn [fst snd].
  set (w4 := mkWorld _ _ _ _).
  assert (Hp4 : pil_image (self w4) = Some r')
    by (subst w4; cbn; destruct (self w3); exact Hp3).
  assert (Hl4 : lookup w4 r' = Some im') by exact Hl3.
  assert (Ht4 : trace w4
                = (trace w1 ++ [Called (name p)
                                  (H_slotSetImageDimensions (PIL.width im')
                                                            (PIL.height im'))])%list)
    by (subst w4; cbn; rewrite Ht3; reflexivity).
  pose proof (refresh_scene_keeps_pattern w4) as K.
  destruct (slotSetImageDimensions o (PIL.width im') (PIL.height im') (ui (self w3)))
    as [[[]|e] u4] eqn:Es; cbn [fst snd].
  - split; [destruct K as (-> & _); exact Hp4|].
    split; [rewrite (lookup_kept _ _ r' K); exact Hl4|].
    split.
    { destruct K as (_ & _ & t & ->). rewrite Ht4, <- app_assoc.
      eexists. reflexivity. }
    intros Hok.
    split; [apply (refresh_scene_returns w4 r' im' Hp4 Hl4)|].
    split; [intros _ _; apply (refresh_scene_label w4 r' im' Hp4 Hl4)|].
    intros Hkeep.
    destruct (refresh_scene_ui w4) as (Hflags & _).
    unfold enabled_flags in Hflags. injection Hflags as _ _ _ _ Hkc _ _.
    rewrite Hkc. subst w4. cbn [self ui with_ui].
    destruct (self w3). cbn [ui with_ui] in *.
    specialize (Hkeep ui0). rewrite Es in Hkeep. cbn in Hkeep.
    congruence.
  - split; [exact Hp4|]. split; [exact Hl4|].
    split; [rewrite Ht4; eexists; reflexivity|].
    intros Hok. specialize (Hok (ui (self w3))). rewrite Es in Hok.
    discriminate Hok.
Qed.
(** * Instances *)

(** For start 80, stop 119 and a pattern 40 wide, the left edge is at
    -20 in mode left, at -20.5 in mode center and at -21 in mode right. *)
Lemma refresh_scene_places_pattern_witness :
  pos_eq (pattern_pos (shown_scene (snd (refresh_scene (sample_world "left")))))
         (Some (-20, 0)%Q) /\
  pos_eq (pattern_pos (shown_scene (snd (refresh_scene (sample_world "center")))))
         (Some (-41 # 2, 0)%Q) /\
  pos_eq (pattern_pos (shown_scene (snd (refresh_scene (sample_world "right")))))
         (Some (-21, 0)%Q).
Proof.
  split; [|split].
  - destruct (refresh_scene_places_pattern (sample_world "left") 0%nat
                sample_pattern eq_refl eq_refl) as (_ & x & Hpos & Hx & _ & _).
    rewrite Hpos. split; [rewrite (Hx eq_refl)|]; reflexivity.
  - destruct (refresh_scene_places_pattern (sample_world "center") 0%nat
                sample_pattern eq_refl eq_refl) as (_ & x & Hpos & _ & Hx & _).
    rewrite Hpos. split; [rewrite (Hx eq_refl)|]; reflexivity.
  - destruct (refresh_scene_places_pattern (sample_world "right") 0%nat
                sample_pattern eq_refl eq_refl) as (_ & x & Hpos & _ & _ & Hx).
    rewrite Hpos. split; [rewrite (Hx eq_refl)|]; reflexivity.
Defined.

(** The limit lines of the sample pattern are at -21 and 19. *)
Lemma refresh_scene_limit_lines_witness :
  limit_lines_at (snd (refresh_scene (sample_world "center"))) (-21) 19 2.
Proof.
  exact (refresh_scene_limit_lines (sample_world "center") 0%nat sample_pattern
           eq_refl eq_refl).
Defined.

(** C7 as stated fails: for start 80 the line of the start needle is not
    at 80 - 100. *)
Lemma limit_line_not_at_start_minus_100 :
  ~ limit_lines_at (snd (refresh_scene (sample_world "center")))
                   (inject_Z (start_needle (self (sample_world "center"))) - 100)
                   (inject_Z (stop_needle (self (sample_world "center"))) - 100)
                   (PIL.height sample_pattern).
Proof.
  intros (a & b & rest & Hr & Ha & _).
  vm_compute in Hr. injection Hr as <- _ _.
  destruct Ha as [Hx _]. vm_compute in Hx. discriminate Hx.
Qed.

(** With the alignment "justify" the pattern is at the origin, whatever
    the scene before showed. *)
Lemma refresh_scene_unknown_alignment_witness :
  pattern_pos (shown_scene (snd (refresh_scene (sample_world "justify"))))
  = Some (0%Q, 0%Q).
Proof.
  exact (proj2 (proj2 (proj2 (proj2
    (refresh_scene_unknown_alignment (sample_world "justify") 0%nat
       sample_pattern eq_refl eq_refl eq_refl))))).
Defined.

(** C6 as stated fails: the pattern was at -20.5 in mode center; after
    the alignment becomes "justify" it is at 0, not where it was. *)
Lemma unknown_alignment_moves_pattern :
  let before := snd (refresh_scene (sample_world "center")) in
  let after := snd (slotUpdateAlignment "justify" before) in
  known_alignment (imageAlignment (self after)) = false /\
  pos_eq (pattern_pos (shown_scene before)) (Some (-41 # 2, 0)%Q) /\
  ~ pos_eq (pattern_pos (shown_scene after)) (pattern_pos (shown_scene before)).
Proof.
  split; [reflexivity|]. split; [split; reflexivity|].
  intros [Hx _]. vm_compute in Hx. discriminate Hx.
Qed.

(** With nothing loaded, the repeat action changes nothing. *)
Lemma apply_image_transform_without_pattern_witness :
  repeat_image (fun _ im => Ret im) (2, true) (3, true) empty_world
  = (Ret tt, empty_world).
Proof.
  destruct (apply_image_transform_without_pattern (fun _ im => Ret im)
              empty_world eq_refl) as (_ & _ & H & _).
  apply H.
Defined.

(** The teardown of "OLD" empties the dock, leaves a note and raises;
    "AYAB" is enabled all the same, and its setup ran after the teardown,
    on the widgets the teardown left: the dock is filled again and the
    status bar quotes the note. *)
Lemma set_enabled_plugin_switches_witness :
  let w' := snd (set_enabled_plugin (Some "AYAB") handover_world) in
  enabled_plugin (self w') = Some (arriving_plugin "AYAB") /\
  widget_optionsdock (ui (self w')) = true /\
  notification_label (ui (self w')) = "options removed" /\
  statusBar (ui (self w')) = "options removed; options added".
Proof.
  destruct (set_enabled_plugin_switches handover_world "AYAB"
              (leaving_plugin "OLD") (arriving_plugin "AYAB") _ _
              eq_refl eq_refl ltac:(discriminate) eq_refl eq_refl)
    as (_ & He & Hu & _).
  cbv zeta. rewrite He, Hu. repeat split.
Defined.

(** Two workers run after two calls. *)
Lemma start_knitting_process_starts_worker_witness :
  length (running (snd (start_knitting_process
                          (snd (start_knitting_process empty_world))))) = 2%nat.
Proof.
  destruct (start_knitting_process_starts_worker
              (snd (start_knitting_process empty_world))
              (quiet_plugin "AYAB") _ eq_refl eq_refl) as (_ & H & _).
  rewrite H. reflexivity.
Defined.

(** C2 as stated fails: a second call while the first worker runs raises
    nothing and a second worker runs. *)
Lemma second_start_is_not_rejected :
  let w1 := snd (start_knitting_process empty_world) in
  length (running w1) = 1%nat /\
  fst (start_knitting_process w1) = Ret tt /\
  length (running (snd (start_knitting_process w1))) = 2%nat /\
  ~ ((exists e, fst (start_knitting_process w1) = Raise e) /\
     snd (start_knitting_process w1) = w1).
Proof.
  repeat split; try reflexivity.
  intros [[e He] _]. discriminate He.
Qed.

(** A [FysomError] is absorbed, a [ValueError] is not. *)
Lemma GenericThread_run_absorbs_FysomError_only_witness :
  fst (GenericThread_run (raising_thread (mkExn FysomError "event knit inappropriate"))
                         empty_world) = Ret tt /\
  fst (GenericThread_run (raising_thread (mkExn ValueError "port closed"))
                         empty_world) = Raise (mkExn ValueError "port closed").
Proof.
  split.
  - apply (GenericThread_run_absorbs_FysomError_only
             (raising_thread (mkExn FysomError "event knit inappropriate"))
             _ empty_world eq_refl).
    reflexivity.
  - destruct (GenericThread_run_absorbs_FysomError_only
                (raising_thread (mkExn ValueError "port closed"))
                _ empty_world eq_refl) as (_ & H & _).
    rewrite (H eq_refl). reflexivity.
Defined.



Lemma two_pixels_wf : PIL.wf_image two_pixels.
Proof.
  unfold PIL.wf_image. cbn.
  repeat split; try lia.
  repeat constructor; lia.
Defined.

(** Two pixels repeated twice down and three times across: six by two,
    and the last pixel of the last tile is the second pixel. *)
Lemma repeat_image_tiles_witness :
  exists out,
    lookup (snd (__repeat_image 0%nat [PyInt 2; PyInt 3] two_pixel_world)) 1%nat
    = Some out /\
    PIL.size out = (6, 2) /\
    PIL.getpixel out 5 1 = [20; 40; 60].
Proof.
  destruct (repeat_image_tiles 0%nat 2 3 two_pixel_world two_pixels eq_refl
              two_pixels_wf ltac:(lia) ltac:(lia))
    as (new_im & out & Hret & _ & Hout & _ & _ & Hsize & Hpx).
  injection Hret as <-.
  exists out. split; [exact Hout|]. split; [exact Hsize|].
  exact (proj1 (Hpx 2 1 1 0 ltac:(lia) ltac:(lia) ltac:(cbn; lia) ltac:(cbn; lia))).
Defined.

(** C5 as stated fails for a pattern with transparency: the tile of a
    single transparent pixel has three bytes, not the pattern's four. *)
Lemma repeat_image_drops_transparency :
  let result := __repeat_image 0%nat [PyInt 1; PyInt 1] one_pixel_world in
  exists out,
    fst result = Ret 1%nat /\
    lookup (snd result) 1%nat = Some out /\
    PIL.getpixel one_pixel 0 0 = [10; 30; 50; 0] /\
    PIL.getpixel out 0 0 = [10; 30; 50] /\
    PIL.getpixel out (0 * PIL.width one_pixel + 0) (0 * PIL.height one_pixel + 0)
    <> PIL.getpixel one_pixel 0 0.
Proof.
  eexists. split; [reflexivity|]. split; [reflexivity|].
  split; [reflexivity|]. split; [reflexivity|].
  intros H. vm_compute in H. discriminate H.
Qed.

(** The transparent pixel (10, 30, 50) inverted is (245, 225, 205). *)
Lemma invert_image_inverts_witness :
  exists inverted out,
    fst (__invert_image 0%nat [] one_pixel_world) = Ret inverted /\
    lookup (snd (__invert_image 0%nat [] one_pixel_world)) inverted = Some out /\
    lookup (snd (__invert_image 0%nat [] one_pixel_world)) 0%nat = Some one_pixel /\
    PIL.mode out = PIL.RGB /\
    PIL.bands out = [[245]; [225]; [205]].
Proof.
  destruct (invert_image_inverts 0%nat [] one_pixel_world one_pixel
              eq_refl eq_refl)
    as (inverted & out & Hret & _ & Hout & Hold & _ & Hmode & _ & Hbands & _).
  exists inverted, out.
  split; [exact Hret|]. split; [exact Hout|].
  split; [apply Hold; reflexivity|]. split; [exact Hmode|].
  exact Hbands.
Defined.

(** * Further instances *)

Lemma refresh_scene_progress_line_witness :
  progress_line_at (snd (refresh_scene (sample_world "center"))) 2.
Proof.
  exact (refresh_scene_progress_line (sample_world "center") 0%nat
           sample_pattern eq_refl eq_refl).
Defined.

(** The bars and their colours, here with an alignment the window does not
    know. *)
Lemma refresh_scene_draws_machine_witness :
  exists a b,
    brushed_rects (shown_scene (snd (refresh_scene (sample_world "justify"))))
    = [("orange", a); ("green", b)] /\
    rect_eq a (-100, -5, 100, 5)%Q /\ rect_eq b (0, -5, 100, 5)%Q.
Proof.
  destruct (refresh_scene_draws_machine (sample_world "justify") 0%nat
              sample_pattern eq_refl eq_refl) as (a & b & H & Ha & Hb).
  exists a, b. split; [exact H|].
  destruct a as [[[ax ay] aw] ah], b as [[[bx by'] bw] bh].
  cbn [rect_eq] in *.
  destruct Ha as (Ha1 & Ha2 & Ha3 & Ha4), Hb as (Hb1 & Hb2 & Hb3 & Hb4).
  rewrite Ha1, Ha2, Ha3, Ha4, Hb1, Hb2, Hb3, Hb4.
  repeat split; reflexivity.
Defined.

Lemma slots_without_pattern_witness :
  fst (slotUpdateNeedles 1 200 empty_world) = Raise (NoneType_has_no "size") /\
  stop_needle (self (snd (slotUpdateNeedles 1 200 empty_world))) = 200.
Proof.
  destruct (slots_without_pattern empty_world eq_refl) as (_ & H & _).
  rewrite (H 1 200). split; reflexivity.
Defined.

Lemma refresh_scene_idempotent_witness :
  refresh_scene (snd (refresh_scene (sample_world "left")))
  = (Ret tt, snd (refresh_scene (sample_world "left"))).
Proof.
  exact (refresh_scene_idempotent (sample_world "left") 0%nat sample_pattern
           eq_refl eq_refl eq_refl).
Defined.

(** Three steps up from zoom 3 stop at 5. *)
(** Three steps up from level 3 stop at 5. *)
Lemma wheelEvent_zoom_witness :
  (zoomlevel (self (snd (wheelEvent 360 (sample_world "center")))) == 5)%Q.
Proof.
  destruct (wheelEvent_zoom 360 (sample_world "center")) as (_ & H).
  destruct (H 0%nat sample_pattern 3 3 eq_refl eq_refl ltac:(lia) eq_refl
              ltac:(lia) ltac:(reflexivity)) as (_ & H5 & _).
  exact H5.
Defined.

Lemma updateProgress_shows_progress_witness :
  notification_label
    (ui (self (snd (updateProgress 1 2 (sample_world "center"))))) = "1/2".
Proof.
  destruct (updateProgress_shows_progress 1 2 (sample_world "center") 0%nat
              sample_pattern eq_refl eq_refl) as (_ & _ & _ & _ & H).
  rewrite H by discriminate. reflexivity.
Defined.

Lemma start_knitting_process_without_plugin_witness :
  running (snd (start_knitting_process no_plugin_world)) = [] /\
  enabled_flags (ui (self (snd (start_knitting_process no_plugin_world))))
  = [false; false; false; false; false; false; true].
Proof.
  destruct (start_knitting_process_without_plugin no_plugin_world
              (or_introl eq_refl)) as (_ & Hr & _ & _ & Hf).
  split; [exact Hr|exact Hf].
Defined.

Lemma cancel_knitting_process_is_cooperative_witness :
  trace (snd (cancel_knitting_process empty_world)) = [Called "AYAB" H_cancel].
Proof.
  destruct (cancel_knitting_process_is_cooperative empty_world)
    as (_ & _ & _ & H).
  exact (proj2 (H (quiet_plugin "AYAB") _ eq_refl eq_refl)).
Defined.

Lemma resetUI_after_start_witness :
  enabled_flags
    (ui (self (snd (resetUI (snd (start_knitting_process empty_world))))))
  = [true; true; true; true; false; false; false].
Proof.
  exact (proj1 (proj2 (resetUI_after_start empty_world (quiet_plugin "AYAB") _
                         eq_refl eq_refl))).
Defined.

Lemma set_enabled_plugin_never_raises_witness :
  fst (set_enabled_plugin (Some "NOPE") two_plugin_world) = Ret None.
Proof.
  destruct (set_enabled_plugin_never_raises (Some "NOPE") two_plugin_world)
    as (H & Hn & _).
  rewrite H, (Hn "NOPE" eq_refl) by discriminate. reflexivity.
Defined.

(** The teardown of "OLD" empties the dock and raises; with the unknown
    name nothing fills it again. *)
Lemma set_enabled_plugin_unknown_name_witness :
  let w' := snd (set_enabled_plugin (Some "NOPE") handover_world) in
  enabled_plugin (self w') = None /\
  widget_optionsdock (ui (self w')) = false /\
  notification_label (ui (self w')) = "options removed" /\
  statusBar (ui (self w')) = "" /\
  trace w' = [Called "OLD" H_cleanup_ui; Log INFO "no plugin object loaded"].
Proof.
  destruct (set_enabled_plugin_unknown_name handover_world "NOPE"
              (leaving_plugin "OLD") _ eq_refl eq_refl ltac:(discriminate)
              eq_refl)
    as (_ & He & Hu & Ht).
  cbv zeta. rewrite He, Hu, Ht. repeat split.
Defined.

(** The log line carries what [str] gives for the plugin, its default
    representation with the address, and the name asked for. *)
Lemma set_enabled_plugin_first_witness :
  let w' := snd (set_enabled_plugin (Some "AYAB") no_plugin_world) in
  enabled_plugin (self w') = Some (quiet_plugin "AYAB") /\
  trace w'
  = [Called "AYAB" H_setup_ui;
     Log INFO "Set enabled_plugin as <yapsy.PluginInfo.PluginInfo object at 0x7f3a5c0b1d30> - AYAB"].
Proof.
  destruct (set_enabled_plugin_first no_plugin_world "AYAB"
              (quiet_plugin "AYAB") _ eq_refl ltac:(discriminate) eq_refl
              eq_refl)
    as (_ & He & _ & _ & Ht).
  cbv zeta. rewrite He, (Ht eq_refl). split; reflexivity.
Defined.

Lemma set_enabled_plugin_default_name_witness :
  set_enabled_plugin None no_plugin_world
  = set_enabled_plugin (Some "AYAB") no_plugin_world.
Proof.
  apply (set_enabled_plugin_default_name no_plugin_world eq_refl).
  discriminate.
Defined.

Lemma load_image_from_string_notifies_witness :
  exists t,
    trace (snd (load_image_from_string "a.png" (Ret two_pixels) empty_world))
    = (t ++ [Called "AYAB" (H_slotSetImageDimensions 2 1)])%list.
Proof.
  destruct (load_image_from_string_notifies "a.png" two_pixels empty_world
              (quiet_plugin "AYAB") _ eq_refl eq_refl)
    as (u & t & _ & _ & H & _).
  exists t. exact H.
Defined.

Lemma load_image_from_string_without_plugin_witness :
  fst (load_image_from_string "a.png" (Ret two_pixels) no_plugin_world)
  = Raise (NoneType_has_no "plugin_object") /\
  pil_image (self (snd (load_image_from_string "a.png" (Ret two_pixels)
                          no_plugin_world))) = Some 1%nat.
Proof.
  destruct (load_image_from_string_without_plugin "a.png" two_pixels
              no_plugin_world eq_refl) as (H1 & H2 & _).
  split; [exact H1|exact H2].
Defined.

Lemma file_select_dialog_cases_witness :
  file_select_dialog "/home/me" (picks "") unreadable empty_world
  = (Ret tt, empty_world) /\
  filename_lineedit
    (ui (self (snd (file_select_dialog "/home/me" (picks "x.png") unreadable
                      empty_world)))) = "x.png".
Proof.
  split.
  - exact (proj1 (file_select_dialog_cases "/home/me" (picks "") unreadable
                    empty_world) eq_refl).
  - destruct (file_select_dialog_cases "/home/me" (picks "x.png") unreadable
                empty_world) as (_ & H).
    destruct (H ltac:(discriminate) _ eq_refl) as (_ & Hf & _).
    exact Hf.
Defined.

Lemma display_blocking_pop_up_types_witness :
  fst (display_blocking_pop_up (fun _ _ _ => true) "Done" "info" empty_world)
  = Ret (Some true) /\
  fst (display_blocking_pop_up (fun _ _ _ => true) "Done" "notice" empty_world)
  = Raise (mkExn TypeError "'NoneType' object is not callable").
Proof.
  destruct (display_blocking_pop_up_types (fun _ _ _ => true) "Done" "info"
              empty_world) as (_ & H & _).
  destruct (display_blocking_pop_up_types (fun _ _ _ => true) "Done" "notice"
              empty_world) as (_ & _ & H').
  split.
  - destruct (H ltac:(cbn; auto)) as (box & _ & Hr). exact Hr.
  - apply H'. cbn. intros [E|[E|[E|[E|[]]]]]; discriminate E.
Defined.

(** Needles given in the wrong order. *)
Lemma slotUpdateNeedles_redraws_witness :
  limit_lines_at (snd (slotUpdateNeedles 150 20 (sample_world "center")))
                 49 (-80) 2.
Proof.
  exact (proj2 (proj2 (proj2
    (slotUpdateNeedles_redraws 150 20 (sample_world "center") 0%nat
       sample_pattern ltac:(lia) ltac:(lia) eq_refl eq_refl
       eq_refl eq_refl)))).
Defined.

Lemma mirror_image_mirrors_witness :
  exists out,
    lookup (snd (__mirror_image 0%nat [] two_pixel_world)) 1%nat = Some out /\
    PIL.getpixel out 0 0 = [20; 40; 60; 255].
Proof.
  destruct (mirror_image_mirrors 0%nat [] [] two_pixel_world two_pixels eq_refl)
    as (out & _ & _ & _ & Hout & _ & _ & _ & Hpx & _).
  exists out. split; [exact Hout|].
  rewrite (Hpx 0 0) by (cbn; lia). reflexivity.
Defined.

Lemma flip_image_flips_witness :
  exists out,
    lookup (snd (__flip_image 0%nat [] two_pixel_world)) 1%nat = Some out /\
    PIL.getpixel out 1 0 = [20; 40; 60; 255].
Proof.
  destruct (flip_image_flips 0%nat [] [] two_pixel_world two_pixels eq_refl)
    as (out & _ & _ & _ & Hout & _ & _ & _ & Hpx & _).
  exists out. split; [exact Hout|].
  rewrite (Hpx 1 0) by (cbn; lia). reflexivity.
Defined.

Lemma invert_image_twice_witness :
  exists r1 r2 out,
    fst (__invert_image 0%nat [] one_pixel_world) = Ret r1 /\
    lookup (snd (__invert_image r1 [] (snd (__invert_image 0%nat [] one_pixel_world))))
           r2 = Some out /\
    PIL.bands out = [[10]; [30]; [50]].
Proof.
  destruct (invert_image_twice 0%nat [] [] one_pixel_world one_pixel
              eq_refl eq_refl)
    as (r1 & r2 & out & H1 & _ & Hout & _ & _ & _ & Hb & _).
  exists r1, r2, out. split; [exact H1|]. split; [exact Hout|exact Hb].
Defined.

(** A negative count is a [ValueError] also when it is a float, or when the
    other count is one; a float count that is not negative is a
    [TypeError]. *)
Lemma repeat_image_bad_arguments_witness :
  fst (__repeat_image 0%nat [PyInt 2; PyInt (-1)] two_pixel_world)
  = Raise (mkExn ValueError "Width and height must be >= 0") /\
  fst (__repeat_image 0%nat [PyFloat (-2 # 1); PyInt 1] two_pixel_world)
  = Raise (mkExn ValueError "Width and height must be >= 0") /\
  fst (__repeat_image 0%nat [PyFloat (2 # 1); PyInt (-1)] two_pixel_world)
  = Raise (mkExn ValueError "Width and height must be >= 0") /\
  exists e,
    fst (__repeat_image 0%nat [PyFloat (2 # 1); PyInt 1] two_pixel_world)
    = Raise e /\ exn_class e = TypeError.
Proof.
  destruct (repeat_image_bad_arguments 0%nat two_pixel_world two_pixels
              eq_refl ltac:(cbn; lia) ltac:(cbn; lia)) as (_ & _ & Hv & Ht).
  rewrite (Hv (PyInt 2) (PyInt (-1)) [] (or_intror eq_refl)).
  rewrite (Hv (PyFloat (-2 # 1)) (PyInt 1) [] (or_introl eq_refl)).
  rewrite (Hv (PyFloat (2 # 1)) (PyInt (-1)) [] (or_intror eq_refl)).
  destruct (Ht (PyFloat (2 # 1)) (PyInt 1) [] eq_refl eq_refl
               (or_introl eq_refl)) as (e & He & Hc).
  repeat split. exists e. rewrite He. split; [reflexivity|exact Hc].
Defined.

Lemma repeat_image_zero_count_witness :
  lookup (snd (__repeat_image 0%nat [PyInt 3; PyInt 0] two_pixel_world)) 1%nat
  = Some (PIL.mkImage PIL.RGB (0, 3) [[]; []; []]).
Proof.
  rewrite (repeat_image_zero_count 0%nat 3 0 two_pixel_world two_pixels
             eq_refl ltac:(cbn; lia) ltac:(cbn; lia) ltac:(lia) ltac:(lia)
             (or_intror eq_refl)).
  reflexivity.
Defined.

Lemma transforms_leave_images_witness :
  lookup (snd (call (transform_dict no_rotation "repeat") 0%nat
                 [PyInt 2; PyInt 2] two_pixel_world)) 0%nat
  = Some two_pixels.
Proof.
  destruct (transforms_leave_images no_rotation "repeat" 0%nat
              [PyInt 2; PyInt 2] two_pixel_world) as (_ & _ & H & _).
  apply H. reflexivity.
Defined.

(** The mirror action: the pattern is the mirrored image and the plugin
    is told 2 by 1. *)
Lemma apply_image_transform_success_witness :
  pil_image (self (snd (mirror_image no_rotation two_pixel_world))) = Some 1%nat /\
  fst (mirror_image no_rotation two_pixel_world) = Ret tt /\
  dimensions_label (ui (self (snd (mirror_image no_rotation two_pixel_world))))
  = "2 - 1".
Proof.
  destruct (apply_image_transform_success no_rotation "mirror" []
              two_pixel_world _ 0%nat 1%nat (PIL.ImageOps_mirror two_pixels)
              (quiet_plugin "AYAB") _ eq_refl eq_refl eq_refl eq_refl eq_refl)
    as (Hp & _ & _ & H).
  destruct (H (fun _ => eq_refl)) as (Hret & Hlabel & _).
  split; [exact Hp|]. split; [exact Hret|].
  apply Hlabel; reflexivity.
Defined.
